(** * Shallow embedding of the slot monitor of [src/main.py]

    The monitor drives a Selenium browser against one page, extracts
    "slot" elements by CSS selector, checks the anchors' targets with
    [requests.head], and writes a summary.  The browser, the HTTP client
    and the file system are external: their answers are fields of an
    environment record [Env], and every call the program makes on them is
    a step of a state-and-exception monad [M] over the shared [results]
    dict (mutated in place, also when an exception escapes) and a trace of
    the driver calls. *)

From Stdlib Require Import String Ascii List ZArith Arith Lia Bool.
Import ListNotations.
Open Scope list_scope.

(** ** Python strings

    A Python [str] is a sequence of Unicode code points. *)

Definition pystr := list Z.

(** An ASCII literal as a Python string. *)
Definition py (s : string) : pystr :=
  map (fun a => Z.of_nat (nat_of_ascii a)) (list_ascii_of_string s).

Definition str_eqb (a b : pystr) : bool :=
  if list_eq_dec Z.eq_dec a b then true else false.

(** [s.startswith(p)] *)
Fixpoint startswith (s p : pystr) : bool :=
  match p, s with
  | [], _ => true
  | c :: p', d :: s' => Z.eqb c d && startswith s' p'
  | _ :: _, [] => false
  end.

(** [p in s] for strings. *)
Fixpoint contains (s p : pystr) : bool :=
  match s with
  | [] => startswith [] p
  | _ :: s' => startswith s p || contains s' p
  end.

(** [sep.join(l)] *)
Fixpoint join (sep : pystr) (l : list pystr) : pystr :=
  match l with
  | [] => []
  | [x] => x
  | x :: l' => x ++ sep ++ join sep l'
  end.

(** Decimal digits of [n] (fuel bounds the recursion; [n + 1] suffices). *)
Fixpoint digits_fuel (fuel n : nat) : pystr :=
  match fuel with
  | 0 => []
  | S f =>
      if n <? 10 then [48 + Z.of_nat n]%Z
      else digits_fuel f (n / 10) ++ [48 + Z.of_nat (n mod 10)]%Z
  end.

Definition decimal (n : nat) : pystr := digits_fuel (S n) n.

(** [f'{n:02d}']: zero-padded to a minimum width of 2. *)
Definition format_02d (n : nat) : pystr :=
  let d := decimal n in repeat 48%Z (2 - length d) ++ d.

(** ** Exceptions and fallible values *)

Inductive exn :=
  | TimeoutException (msg : pystr)       (* selenium TimeoutException *)
  | RequestException (msg : pystr)       (* requests.RequestException *)
  | OtherException (msg : pystr).        (* any other Exception *)

(** [str(e)] *)
Definition str_exn (e : exn) : pystr :=
  match e with
  | TimeoutException m | RequestException m | OtherException m => m
  end.

Inductive py_res (A : Type) :=
  | Ok (a : A)
  | Raise (e : exn).
Arguments Ok {A} a.
Arguments Raise {A} e.

Notation "'let?' x ':=' r 'in' k" :=
  (match r with Ok x => k | Raise e => Raise e end)
  (at level 200, x name, r at level 100, k at level 200).

(** ** The environment: what the browser, the network and the disk answer *)

(** A Selenium [WebElement]: every property read may raise. *)
Record Elem := {
  e_text : py_res pystr;                    (* elem.text *)
  e_tag_name : py_res pystr;                (* elem.tag_name *)
  e_is_displayed : py_res bool;             (* elem.is_displayed() *)
  e_get_attribute : pystr -> py_res (option pystr)  (* None: attribute absent *)
}.

Record Env := {
  cfg_target_url : pystr;                   (* Config.TARGET_URL *)
  env_create_browser : py_res unit;         (* create_browser() *)
  env_load_cookies : bool;                  (* load_cookies(): it catches every
                                               exception itself and returns a bool *)
  env_refresh : py_res unit;                (* driver.refresh() *)
  env_page_source : py_res pystr;           (* driver.page_source *)
  env_get : pystr -> py_res unit;           (* driver.get(url) *)
  env_body_wait : py_res unit;              (* WebDriverWait(...).until(body) *)
  env_title : py_res pystr;                 (* driver.title *)
  env_current_url : py_res pystr;           (* driver.current_url *)
  env_find_elements : pystr -> py_res (list Elem);  (* find_elements(CSS, sel) *)
  env_head : pystr -> py_res Z;             (* requests.head(url, ...).status_code *)
  env_mkdir : py_res unit;                  (* SCREENSHOTS_DIR.mkdir(exist_ok=True) *)
  env_screenshot_name : pystr;              (* str(filename) *)
  env_save_screenshot : py_res unit;        (* driver.save_screenshot(...) *)
  env_quit : py_res unit;                   (* driver.quit() *)
  env_json_write : py_res unit              (* open(results_file, 'w') + json.dump *)
}.

(** ** The [results] dict *)

Record Slot := {
  slot_index : pystr;
  slot_type : pystr;
  slot_text : pystr;
  slot_tag : pystr;
  slot_visible : bool;
  slot_href : option pystr;   (* key present only for tag 'a' *)
  slot_src : option pystr;    (* key present only for tag 'img' *)
  slot_alt : option pystr     (* key present only for tag 'img' *)
}.

Inductive status_code :=
  | HttpStatus (code : Z)
  | StatusERROR.              (* the string 'ERROR' *)

Record BrokenLink := {
  bl_url : pystr;
  bl_status_code : status_code;
  bl_text : pystr;
  bl_error : option pystr     (* key present only on request failure *)
}.

(** The keys [timestamp], [date], [time] and [url] are set once in
    [__init__] and never written again; they are left out. *)
Record Results := {
  r_status : pystr;
  r_login_status : pystr;
  r_slots : list Slot;
  r_broken_links : list BrokenLink;
  r_total_slots : nat;
  r_total_links : nat;
  r_broken_link_count : nat;
  r_errors : list pystr;
  r_screenshot : option pystr;
  r_page_title : option pystr;
  r_current_url : option pystr
}.

(** [BaeminMonitor.__init__] *)
Definition init_results : Results := {|
  r_status := py "pending";
  r_login_status := py "unknown";
  r_slots := [];
  r_broken_links := [];
  r_total_slots := 0;
  r_total_links := 0;
  r_broken_link_count := 0;
  r_errors := [];
  r_screenshot := None;
  r_page_title := None;
  r_current_url := None
|}.

(** Assignments [self.results[key] = v]. *)
Definition set_status (s : pystr) (r : Results) : Results :=
  {| r_status := s; r_login_status := r_login_status r; r_slots := r_slots r;
     r_broken_links := r_broken_links r; r_total_slots := r_total_slots r;
     r_total_links := r_total_links r; r_broken_link_count := r_broken_link_count r;
     r_errors := r_errors r; r_screenshot := r_screenshot r;
     r_page_title := r_page_title r; r_current_url := r_current_url r |}.

Definition set_login_status (s : pystr) (r : Results) : Results :=
  {| r_status := r_status r; r_login_status := s; r_slots := r_slots r;
     r_broken_links := r_broken_links r; r_total_slots := r_total_slots r;
     r_total_links := r_total_links r; r_broken_link_count := r_broken_link_count r;
     r_errors := r_errors r; r_screenshot := r_screenshot r;
     r_page_title := r_page_title r; r_current_url := r_current_url r |}.

(** [results['errors'].append(msg)] *)
Definition append_error (msg : pystr) (r : Results) : Results :=
  {| r_status := r_status r; r_login_status := r_login_status r; r_slots := r_slots r;
     r_broken_links := r_broken_links r; r_total_slots := r_total_slots r;
     r_total_links := r_total_links r; r_broken_link_count := r_broken_link_count r;
     r_errors := r_errors r ++ [msg]; r_screenshot := r_screenshot r;
     r_page_title := r_page_title r; r_current_url := r_current_url r |}.

Definition set_page_title (t : pystr) (r : Results) : Results :=
  {| r_status := r_status r; r_login_status := r_login_status r; r_slots := r_slots r;
     r_broken_links := r_broken_links r; r_total_slots := r_total_slots r;
     r_total_links := r_total_links r; r_broken_link_count := r_broken_link_count r;
     r_errors := r_errors r; r_screenshot := r_screenshot r;
     r_page_title := Some t; r_current_url := r_current_url r |}.

Definition set_current_url (u : pystr) (r : Results) : Results :=
  {| r_status := r_status r; r_login_status := r_login_status r; r_slots := r_slots r;
     r_broken_links := r_broken_links r; r_total_slots := r_total_slots r;
     r_total_links := r_total_links r; r_broken_link_count := r_broken_link_count r;
     r_errors := r_errors r; r_screenshot := r_screenshot r;
     r_page_title := r_page_title r; r_current_url := Some u |}.

Definition set_screenshot (f : pystr) (r : Results) : Results :=
  {| r_status := r_status r; r_login_status := r_login_status r; r_slots := r_slots r;
     r_broken_links := r_broken_links r; r_total_slots := r_total_slots r;
     r_total_links := r_total_links r; r_broken_link_count := r_broken_link_count r;
     r_errors := r_errors r; r_screenshot := Some f;
     r_page_title := r_page_title r; r_current_url := r_current_url r |}.

(** [results['slots'] = slots; results['total_slots'] = len(slots)] *)
Definition set_slots (slots : list Slot) (r : Results) : Results :=
  {| r_status := r_status r; r_login_status := r_login_status r; r_slots := slots;
     r_broken_links := r_broken_links r; r_total_slots := length slots;
     r_total_links := r_total_links r; r_broken_link_count := r_broken_link_count r;
     r_errors := r_errors r; r_screenshot := r_screenshot r;
     r_page_title := r_page_title r; r_current_url := r_current_url r |}.

(** [results['total_links'] = len(checked_urls);
     results['broken_links'] = broken_links;
     results['broken_link_count'] = len(broken_links)] *)
Definition set_links (checked : list pystr) (broken : list BrokenLink) (r : Results)
  : Results :=
  {| r_status := r_status r; r_login_status := r_login_status r; r_slots := r_slots r;
     r_broken_links := broken; r_total_slots := r_total_slots r;
     r_total_links := length checked; r_broken_link_count := length broken;
     r_errors := r_errors r; r_screenshot := r_screenshot r;
     r_page_title := r_page_title r; r_current_url := r_current_url r |}.

(** ** The monad: shared state plus Python exceptions *)

(** Calls made on the browser and on the network, in order. *)
Inductive Event :=
  | EvCreateBrowser
  | EvRefresh
  | EvGet (url : pystr)
  | EvFindElements (selector : pystr)
  | EvHead (url : pystr)
  | EvSaveScreenshot
  | EvQuit.

Record World := {
  w_results : Results;        (* self.results *)
  w_driver : bool;            (* self.driver is not None *)
  w_trace : list Event
}.

Definition init_world : World :=
  {| w_results := init_results; w_driver := false; w_trace := [] |}.

Definition M (A : Type) := World -> py_res A * World.

Definition ret {A} (a : A) : M A := fun w => (Ok a, w).

Definition bind {A B} (m : M A) (k : A -> M B) : M B :=
  fun w =>
    match m w with
    | (Ok a, w1) => k a w1
    | (Raise e, w1) => (Raise e, w1)
    end.

Notation "x <- m ;; k" := (bind m (fun x => k))
  (at level 61, m at next level, right associativity).
Notation "m ;; k" := (bind m (fun _ : unit => k))
  (at level 61, right associativity).

(** Raise [r]'s exception, or return its value. *)
Definition lift {A} (r : py_res A) : M A := fun w => (r, w).

(** [try: m  except Exception as e: h(e)] *)
Definition try_except {A} (m : M A) (h : exn -> M A) : M A :=
  fun w =>
    match m w with
    | (Ok a, w1) => (Ok a, w1)
    | (Raise e, w1) => h e w1
    end.

(** [try: m  finally: fin]: an exception of [fin] replaces [m]'s outcome. *)
Definition try_finally {A} (m : M A) (fin : M unit) : M A :=
  fun w =>
    match m w with
    | (r, w1) =>
        match fin w1 with
        | (Ok _, w2) => (r, w2)
        | (Raise e, w2) => (Raise e, w2)
        end
    end.

Definition modify (f : Results -> Results) : M unit :=
  fun w => (Ok tt, {| w_results := f (w_results w); w_driver := w_driver w;
                      w_trace := w_trace w |}).

Definition get_results : M Results := fun w => (Ok (w_results w), w).

(** A driver or network call: logged, then answered by the environment. *)
Definition call {A} (ev : Event) (r : py_res A) : M A :=
  fun w => (r, {| w_results := w_results w; w_driver := w_driver w;
                  w_trace := w_trace w ++ [ev] |}).

Definition set_driver : M unit :=
  fun w => (Ok tt, {| w_results := w_results w; w_driver := true;
                      w_trace := w_trace w |}).

Definition get_driver : M bool := fun w => (Ok (w_driver w), w).

(** Run [m] and hand back its outcome as a value: the shape of
    [try: ... except E as e: ...] when both branches go on. *)
Definition attempt {A} (m : M A) : M (py_res A) :=
  fun w => match m w with (r, w1) => (Ok r, w1) end.

(** ** [Config] *)

(** The double quote character. *)
Definition DQ : pystr := [34%Z].

(** The CSS attribute selector [[name*="value"]]. *)
Definition attr_contains (name value : string) : pystr :=
  py "[" ++ py name ++ py "*=" ++ DQ ++ py value ++ DQ ++ py "]".

(** [Config.SLOT_SELECTORS], in its declaration order. *)
Definition SLOT_SELECTORS : list (pystr * pystr) := [
  (py "main_banner",
   py ".main-banner, .banner, " ++ attr_contains "class" "banner" ++ py ", " ++
   attr_contains "class" "slide");
  (py "content_cards",
   py ".card, .content-card, " ++ attr_contains "class" "card" ++ py ", " ++
   attr_contains "class" "article");
  (py "menu_items",
   py ".menu-item, .nav-item, " ++ attr_contains "class" "menu" ++ py ", " ++
   attr_contains "class" "nav");
  (py "links", py "a[href]");
  (py "images", py "img[src]");
  (py "sections", py "section, " ++ attr_contains "class" "section")
].

(** The page-source markers of [login_with_cookies]: '로그인' and '보안'. *)
Definition LOGIN_MARKER : pystr := [47196; 44536; 51064]%Z.
Definition SECURITY_MARKER : pystr := [48372; 50504]%Z.

(** [x or ''] for an attribute read. *)
Definition or_empty (o : option pystr) : pystr :=
  match o with Some s => s | None => [] end.

(** [s[:n] if s else ''] *)
Definition trunc (n : nat) (s : pystr) : pystr :=
  match s with [] => [] | _ => firstn n s end.

Section Monitor.

Variable env : Env.

(** [BaeminMonitor.start]: [self.driver] is set only if [create_browser]
    returns. *)
Definition start : M unit :=
  call EvCreateBrowser (env_create_browser env) ;; set_driver.

(** [BaeminMonitor.stop]: [driver.quit()] is not guarded by a [try]. *)
Definition stop : M unit :=
  d <- get_driver ;;
  if d then call EvQuit (env_quit env) else ret tt.

(** [BaeminMonitor.login_with_cookies] *)
Definition login_with_cookies : M bool :=
  if env_load_cookies env then
    call EvRefresh (env_refresh env) ;;
    page_source <- lift (env_page_source env) ;;
    if contains page_source LOGIN_MARKER && contains page_source SECURITY_MARKER
    then modify (set_login_status (py "failed")) ;; ret false
    else modify (set_login_status (py "success")) ;; ret true
  else modify (set_login_status (py "no_cookies")) ;; ret false.

(** [BaeminMonitor._scroll_page]: only [execute_script] calls, each
    failure caught and logged; nothing of [results] is touched. *)
Definition scroll_page : M unit := ret tt.

(** [BaeminMonitor.load_page] *)
Definition load_page : M bool :=
  try_except
    (call (EvGet (cfg_target_url env)) (env_get env (cfg_target_url env)) ;;
     lift (env_body_wait env) ;;
     scroll_page ;;
     ret true)
    (fun e =>
       match e with
       | TimeoutException _ =>
           modify (append_error (py "Page load timeout")) ;; ret false
       | _ =>
           modify (append_error (py "Page load error: " ++ str_exn e)) ;; ret false
       end).

(** [BaeminMonitor.get_page_info] *)
Definition get_page_info : M unit :=
  try_except
    (t <- lift (env_title env) ;;
     modify (set_page_title t) ;;
     u <- lift (env_current_url env) ;;
     modify (set_current_url u))
    (fun _ => ret tt).

(** The body of the inner [try] of [extract_slots]: the [slot_info] dict
    of one element, or the exception that skips it. *)
Definition build_slot (slot_index : nat) (slot_type : pystr) (elem : Elem)
  : py_res Slot :=
  let? text := e_text elem in
  let? tag := e_tag_name elem in
  let? visible := e_is_displayed elem in
  let? href :=
    (if str_eqb tag (py "a") then
       let? h := e_get_attribute elem (py "href") in Ok (Some (or_empty h))
     else Ok None) in
  let? src_alt :=
    (if str_eqb tag (py "img") then
       let? s := e_get_attribute elem (py "src") in
       let? a := e_get_attribute elem (py "alt") in
       Ok (Some (or_empty s), Some (or_empty a))
     else Ok (None, None)) in
  Ok {| slot_index := py "S" ++ format_02d slot_index;
        slot_type := slot_type;
        slot_text := trunc 100 text;
        slot_tag := tag;
        slot_visible := visible;
        slot_href := href;
        slot_src := fst src_alt;
        slot_alt := snd src_alt |}.

(** [for elem in elements[:20]: try: ... slots.append(slot_info);
    slot_index += 1  except Exception: pass] *)
Fixpoint extract_elems (slot_type : pystr) (elems : list Elem)
    (slot_index : nat) (slots : list Slot) : nat * list Slot :=
  match elems with
  | [] => (slot_index, slots)
  | elem :: rest =>
      match build_slot slot_index slot_type elem with
      | Ok s => extract_elems slot_type rest (S slot_index) (slots ++ [s])
      | Raise _ => extract_elems slot_type rest slot_index slots
      end
  end.

(** [for slot_type, selector in SLOT_SELECTORS.items(): try: ...
    except Exception: pass] *)
Fixpoint extract_groups (groups : list (pystr * pystr))
    (slot_index : nat) (slots : list Slot) : M (nat * list Slot) :=
  match groups with
  | [] => ret (slot_index, slots)
  | (slot_type, selector) :: rest =>
      st <- try_except
              (elements <- call (EvFindElements selector)
                                (env_find_elements env selector) ;;
               ret (extract_elems slot_type (firstn 20 elements) slot_index slots))
              (fun _ => ret (slot_index, slots)) ;;
      extract_groups rest (fst st) (snd st)
  end.

(** [BaeminMonitor.extract_slots] *)
Definition extract_slots : M unit :=
  st <- extract_groups SLOT_SELECTORS 1 [] ;;
  modify (set_slots (snd st)).

(** The body of [for link in links[:50]] in [check_links].  The locals
    [checked_urls] and [broken_links] are threaded explicitly: an exception
    raised after [checked_urls.add(url)] keeps the addition. *)
Definition check_one (link : Elem) (checked_urls : list pystr)
    (broken_links : list BrokenLink) : M (list pystr * list BrokenLink) :=
  match e_get_attribute link (py "href") with
  | Raise _ => ret (checked_urls, broken_links)
  | Ok None => ret (checked_urls, broken_links)
  | Ok (Some url) =>
      if str_eqb url [] || existsb (str_eqb url) checked_urls then
        ret (checked_urls, broken_links)
      else if startswith url (py "javascript:") || startswith url (py "#") then
        ret (checked_urls, broken_links)
      else
        let checked' := checked_urls ++ [url] in
        response <- attempt (call (EvHead url) (env_head env url)) ;;
        match response with
        | Ok status =>
            if (400 <=? status)%Z then
              match e_text link with
              | Ok t =>
                  ret (checked', broken_links ++
                        [{| bl_url := url; bl_status_code := HttpStatus status;
                            bl_text := trunc 50 t; bl_error := None |}])
              | Raise _ => ret (checked', broken_links)
              end
            else ret (checked', broken_links)
        | Raise (RequestException _ as e) =>
            match e_text link with
            | Ok t =>
                ret (checked', broken_links ++
                      [{| bl_url := url; bl_status_code := StatusERROR;
                          bl_text := trunc 50 t;
                          bl_error := Some (firstn 50 (str_exn e)) |}])
            | Raise _ => ret (checked', broken_links)
            end
        | Raise _ => ret (checked', broken_links)
        end
  end.

Fixpoint check_loop (links : list Elem) (checked_urls : list pystr)
    (broken_links : list BrokenLink) : M (list pystr * list BrokenLink) :=
  match links with
  | [] => ret (checked_urls, broken_links)
  | link :: rest =>
      st <- check_one link checked_urls broken_links ;;
      check_loop rest (fst st) (snd st)
  end.

(** [BaeminMonitor.check_links] *)
Definition check_links : M unit :=
  try_except
    (links <- call (EvFindElements (py "a[href]"))
                   (env_find_elements env (py "a[href]")) ;;
     st <- check_loop (firstn 50 links) [] [] ;;
     modify (set_links (fst st) (snd st)))
    (fun e => modify (append_error (py "Link check error: " ++ str_exn e))).

(** [BaeminMonitor.take_screenshot]: the [mkdir] is outside the [try]. *)
Definition take_screenshot : M unit :=
  lift (env_mkdir env) ;;
  try_except
    (call EvSaveScreenshot (env_save_screenshot env) ;;
     modify (set_screenshot (env_screenshot_name env)))
    (fun _ => ret tt).

(** The [try] block of [BaeminMonitor.run]. *)
Definition run_body : M unit :=
  start ;;
  _ <- login_with_cookies ;;
  ok <- load_page ;;
  if ok then
    get_page_info ;;
    extract_slots ;;
    check_links ;;
    take_screenshot ;;
    modify (set_status (py "success"))
  else
    modify (set_status (py "failed")) ;;
    take_screenshot.

(** The [except Exception as e] block of [BaeminMonitor.run]. *)
Definition run_handler (e : exn) : M unit :=
  modify (set_status (py "error")) ;;
  modify (append_error (str_exn e)).

(** [BaeminMonitor.run] *)
Definition run : M Results :=
  try_finally (try_except run_body run_handler) stop ;;
  get_results.

End Monitor.

(** ** [save_to_sheets] and [main] *)

(** The spreadsheet side: [Config.SPREADSHEET_ID], the
    [GoogleSheetsManager] constructor (authentication) and [append_row] of
    the row built from [results]. *)
Record Sink := {
  spreadsheet_id : pystr;
  sheets_connect : py_res unit;
  sheets_append_row : Results -> py_res unit
}.

(** [save_to_sheets]: every exception is caught. *)
Definition save_to_sheets (sink : Sink) (results : Results) : bool :=
  if str_eqb (spreadsheet_id sink) [] then false
  else
    match sheets_connect sink with
    | Raise _ => false
    | Ok _ =>
        match sheets_append_row sink results with
        | Ok _ => true
        | Raise _ => false
        end
    end.

Inductive Outcome :=
  | Exited (code : Z) (json : Results) (sheets_saved : bool)
      (* [main] returned [code] after writing [json] *)
  | Crashed (e : exn).
      (* an exception escaped [main] *)

(** [main] ([print_summary] only logs). *)
Definition main (env : Env) (sink : Sink) : Outcome :=
  match run env init_world with
  | (Raise e, _) => Crashed e
  | (Ok results, _) =>
      let saved := save_to_sheets sink results in
      match env_json_write env with
      | Raise e => Crashed e
      | Ok _ =>
          Exited (if str_eqb (r_status results) (py "success") then 0%Z else 1%Z)
                 results saved
      end
  end.

(** The process exit status of [exit(main())]: an uncaught exception
    exits with 1. *)
Definition exit_code (o : Outcome) : Z :=
  match o with
  | Exited c _ _ => c
  | Crashed _ => 1%Z
  end.

(** ** Concrete pages *)

Fixpoint lookup_attr (k : pystr) (attrs : list (pystr * pystr)) : option pystr :=
  match attrs with
  | [] => None
  | (k', v) :: rest => if str_eqb k k' then Some v else lookup_attr k rest
  end.

(** A well-behaved element: no property read raises. *)
Definition mk_elem (text tag : pystr) (attrs : list (pystr * pystr)) : Elem :=
  {| e_text := Ok text; e_tag_name := Ok tag; e_is_displayed := Ok true;
     e_get_attribute := fun k => Ok (lookup_attr k attrs) |}.

Definition anchor (href text : pystr) : Elem :=
  mk_elem text (py "a") [(py "href", href)].

(** A page whose browser and disk never fail, with the given answers for
    navigation, element queries, HEAD requests and [driver.quit()]. *)
Definition demo_env (page_source : pystr) (nav : py_res unit)
    (find : pystr -> py_res (list Elem)) (head : pystr -> py_res Z)
    (quit : py_res unit) : Env := {|
  cfg_target_url := py "https://ceo.baemin.com";
  env_create_browser := Ok tt;
  env_load_cookies := false;
  env_refresh := Ok tt;
  env_page_source := Ok page_source;
  env_get := fun _ => nav;
  env_body_wait := Ok tt;
  env_title := Ok (py "Baemin CEO");
  env_current_url := Ok (py "https://ceo.baemin.com/");
  env_find_elements := find;
  env_head := head;
  env_mkdir := Ok tt;
  env_screenshot_name := py "screenshots/screenshot_20260101_000000.png";
  env_save_screenshot := Ok tt;
  env_quit := quit;
  env_json_write := Ok tt
|}.

Definition no_sink : Sink := {|
  spreadsheet_id := [];
  sheets_connect := Ok tt;
  sheets_append_row := fun _ => Ok tt
|}.

(** * Reasoning about the monad *)

(** [P] holds of the state after [m] whenever it held before, whatever
    [m] returns or raises. *)
Definition preserves {A} (P : World -> Prop) (m : M A) : Prop :=
  forall w, P w -> P (snd (m w)).

Definition on_results (Q : Results -> Prop) (w : World) : Prop := Q (w_results w).

Lemma preserves_ret {A} P (a : A) : preserves P (ret a).
Proof. intros w H; exact H. Qed.

Lemma preserves_lift {A} P (r : py_res A) : preserves P (lift r).
Proof. intros w H; exact H. Qed.

Lemma preserves_get_results P : preserves P get_results.
Proof. intros w H; exact H. Qed.

Lemma preserves_get_driver P : preserves P get_driver.
Proof. intros w H; exact H. Qed.

Lemma preserves_bind {A B} P (m : M A) (k : A -> M B) :
  preserves P m -> (forall a, preserves P (k a)) -> preserves P (bind m k).
Proof.
  intros Hm Hk w Hw; unfold bind.
  specialize (Hm w Hw); destruct (m w) as [[a|e] w1]; simpl in *; auto.
  apply Hk; exact Hm.
Qed.

Lemma preserves_try_except {A} P (m : M A) (h : exn -> M A) :
  preserves P m -> (forall e, preserves P (h e)) -> preserves P (try_except m h).
Proof.
  intros Hm Hh w Hw; unfold try_except.
  specialize (Hm w Hw); destruct (m w) as [[a|e] w1]; simpl in *; auto.
  apply Hh; exact Hm.
Qed.

Lemma preserves_try_finally {A} P (m : M A) (fin : M unit) :
  preserves P m -> preserves P fin -> preserves P (try_finally m fin).
Proof.
  intros Hm Hf w Hw; unfold try_finally.
  specialize (Hm w Hw); destruct (m w) as [r w1]; simpl in *.
  specialize (Hf w1 Hm); destruct (fin w1) as [[u|e] w2]; simpl in *; auto.
Qed.

Lemma preserves_attempt {A} P (m : M A) : preserves P m -> preserves P (attempt m).
Proof.
  intros Hm w Hw; unfold attempt.
  specialize (Hm w Hw); destruct (m w) as [r w1]; exact Hm.
Qed.

Lemma preserves_call {A} Q ev (r : py_res A) : preserves (on_results Q) (call ev r).
Proof. intros w H; exact H. Qed.

Lemma preserves_set_driver Q : preserves (on_results Q) set_driver.
Proof. intros w H; exact H. Qed.

Lemma preserves_modify (Q : Results -> Prop) f :
  (forall r, Q r -> Q (f r)) -> preserves (on_results Q) (modify f).
Proof. intros Hf w H; apply Hf; exact H. Qed.

Create HintDb pres.

#[export] Hint Resolve preserves_ret preserves_lift preserves_get_results
  preserves_get_driver preserves_call preserves_set_driver : pres.

(** Split a [preserves] goal along the structure of the program. *)
Ltac pres_step :=
  match goal with
  | |- preserves _ (bind _ _) => apply preserves_bind; intros; cbv beta
  | |- preserves _ (try_except _ _) => apply preserves_try_except; intros
  | |- preserves _ (try_finally _ _) => apply preserves_try_finally
  | |- preserves _ (attempt _) => apply preserves_attempt
  | |- preserves _ (if ?b then _ else _) => destruct b
  | |- preserves _ (match ?x with _ => _ end) => destruct x
  | |- preserves (on_results _) (modify _) => apply preserves_modify; intros
  end.

Ltac pres := repeat (pres_step || auto with pres).

(** ** The loops leave [results] alone *)

Lemma check_one_preserves env Q link c b :
  preserves (on_results Q) (check_one env link c b).
Proof.
  unfold check_one.
  destruct (e_get_attribute link (py "href")) as [[url|]|e]; [|pres|pres].
  destruct (str_eqb url [] || existsb (str_eqb url) c); [pres|].
  destruct (startswith url (py "javascript:") || startswith url (py "#")); [pres|].
  pres.
Qed.

Lemma check_loop_preserves env Q links :
  forall c b, preserves (on_results Q) (check_loop env links c b).
Proof.
  induction links as [|l rest IH]; intros c b; simpl.
  - pres.
  - apply preserves_bind; [apply check_one_preserves|intros; apply IH].
Qed.

Lemma extract_groups_preserves env Q groups :
  forall i acc, preserves (on_results Q) (extract_groups env groups i acc).
Proof.
  induction groups as [|[ty sel] rest IH]; intros i acc; simpl.
  - pres.
  - apply preserves_bind; [pres|intros; apply IH].
Qed.

#[export] Hint Resolve check_one_preserves check_loop_preserves
  extract_groups_preserves : pres.

(** [run] preserves any property of [results] kept by the writes it does
    outside [extract_slots] and [check_links] and by those two stages. *)
Lemma run_preserves env (Q : Results -> Prop) :
  (forall s r, Q r -> Q (set_status s r)) ->
  (forall s r, Q r -> Q (set_login_status s r)) ->
  (forall s r, Q r -> Q (append_error s r)) ->
  (forall s r, Q r -> Q (set_page_title s r)) ->
  (forall s r, Q r -> Q (set_current_url s r)) ->
  (forall s r, Q r -> Q (set_screenshot s r)) ->
  preserves (on_results Q) (extract_slots env) ->
  preserves (on_results Q) (check_links env) ->
  preserves (on_results Q) (run env).
Proof.
  intros Hst Hlog Herr Htit Hurl Hshot Hext Hchk.
  unfold run, run_handler, run_body, start, stop, login_with_cookies,
    load_page, scroll_page, get_page_info, take_screenshot.
  pres.
Qed.

(** * The counters of [results] *)

Definition counts_ok (r : Results) : Prop :=
  r_total_slots r = length (r_slots r) /\
  r_broken_link_count r = length (r_broken_links r).

Lemma extract_slots_counts env : preserves (on_results counts_ok) (extract_slots env).
Proof.
  unfold extract_slots; pres.
  unfold counts_ok in *; simpl; intuition.
Qed.

Lemma check_links_counts env : preserves (on_results counts_ok) (check_links env).
Proof.
  unfold check_links; pres.
  all: unfold counts_ok in *; simpl; intuition.
Qed.

Lemma run_counts env : preserves (on_results counts_ok) (run env).
Proof.
  apply run_preserves; try (intros s r H; exact H).
  - apply extract_slots_counts.
  - apply check_links_counts.
Qed.

Lemma run_returns_results env r w :
  run env init_world = (Ok r, w) -> r = w_results w.
Proof.
  unfold run, bind at 1, get_results.
  destruct (try_finally _ _ init_world) as [[u|e] w1]; intros H; inversion H; auto.
Qed.

(** C7: after a run, [results['total_slots']] is the length of
    [results['slots']] and [results['broken_link_count']] that of
    [results['broken_links']]: in the state the run leaves, and in the
    JSON artifact [main] writes. *)
Theorem counts_invariant env sink :
  on_results counts_ok (snd (run env init_world)) /\
  match main env sink with
  | Exited _ json _ => counts_ok json
  | Crashed _ => True
  end.
Proof.
  assert (H0 : on_results counts_ok (snd (run env init_world)))
    by (apply run_counts; split; reflexivity).
  split; [exact H0|].
  unfold main.
  destruct (run env init_world) as [[r|e] w] eqn:Er; [|exact I].
  apply run_returns_results in Er; subst r.
  destruct (env_json_write env); [exact H0|exact I].
Qed.

(** * Slot extraction *)

Lemma str_eqb_eq a b : str_eqb a b = true <-> a = b.
Proof.
  unfold str_eqb; destruct (list_eq_dec Z.eq_dec a b); split; congruence.
Qed.

Lemma str_eqb_refl a : str_eqb a a = true.
Proof. apply str_eqb_eq; reflexivity. Qed.

Lemma trunc_length n s : length (trunc n s) <= n.
Proof. destruct s; simpl; [lia|apply firstn_le_length]. Qed.

(** The label [f'S{n:02d}']. *)
Definition slot_label (n : nat) : pystr := py "S" ++ format_02d n.

(** What the spec asks of one [SlotRecord]. *)
Definition slot_ok (s : Slot) : Prop :=
  length (slot_text s) <= 100 /\
  (slot_tag s = py "a" -> slot_href s <> None) /\
  (slot_tag s = py "img" -> slot_src s <> None /\ slot_alt s <> None).

Lemma build_slot_spec i ty elem s :
  build_slot i ty elem = Ok s ->
  slot_index s = slot_label i /\ slot_type s = ty /\ slot_ok s.
Proof.
  unfold build_slot.
  destruct (e_text elem) as [text|]; [|discriminate].
  destruct (e_tag_name elem) as [tag|]; [|discriminate].
  destruct (e_is_displayed elem) as [vis|]; [|discriminate].
  destruct (str_eqb tag (py "a")) eqn:Ea;
    [destruct (e_get_attribute elem (py "href")) as [h|]; [|discriminate]|];
  (destruct (str_eqb tag (py "img")) eqn:Ei;
    [destruct (e_get_attribute elem (py "src")) as [sv|]; [|discriminate];
     destruct (e_get_attribute elem (py "alt")) as [av|]; [|discriminate]|]);
  intros H; injection H as <-; unfold slot_ok; simpl;
  (split; [reflexivity|split; [reflexivity|split; [apply trunc_length|]]]);
  split; intros Ht; subst tag;
  try (rewrite str_eqb_refl in *; discriminate);
  try discriminate; split; discriminate.
Qed.

Lemma extract_elems_spec ty els :
  forall i acc, exists new,
    extract_elems ty els i acc = (i + length new, acc ++ new) /\
    length new <= length els /\
    Forall (fun s => slot_type s = ty /\ slot_ok s) new /\
    map slot_index new = map slot_label (seq i (length new)).
Proof.
  induction els as [|elem rest IH]; intros i acc; simpl.
  - exists []; rewrite Nat.add_0_r, app_nil_r; simpl; repeat split; auto.
  - destruct (build_slot i ty elem) as [s|e] eqn:Eb.
    + destruct (IH (S i) (acc ++ [s])) as (new & E & Hl & Hf & Hm).
      apply build_slot_spec in Eb as (Hi & Ht & Ho).
      exists (s :: new); rewrite E, <- app_assoc; simpl.
      repeat split; [f_equal; lia|lia| |rewrite Hi, Hm; reflexivity].
      constructor; auto.
    + destruct (IH i acc) as (new & E & Hl & Hf & Hm).
      exists new; repeat split; auto.
Qed.

Definition names_count (groups : list (pystr * pystr)) (g : pystr) : nat :=
  count_occ (list_eq_dec Z.eq_dec) (map fst groups) g.

Definition of_type (g : pystr) (s : Slot) : bool := str_eqb (slot_type s) g.

Lemma filter_of_type_single ty g l :
  Forall (fun s => slot_type s = ty /\ slot_ok s) l ->
  length (filter (of_type g) l) = if list_eq_dec Z.eq_dec ty g then length l else 0.
Proof.
  induction 1 as [|s l [Hs _] _ IH]; simpl.
  - destruct (list_eq_dec Z.eq_dec ty g); reflexivity.
  - unfold of_type at 1; rewrite Hs.
    destruct (list_eq_dec Z.eq_dec ty g) as [<-|n].
    + rewrite str_eqb_refl; simpl; rewrite IH; reflexivity.
    + destruct (str_eqb ty g) eqn:E; [apply str_eqb_eq in E; contradiction|exact IH].
Qed.

Lemma extract_groups_spec env groups :
  forall i acc w, exists new,
    fst (extract_groups env groups i acc w) = Ok (i + length new, acc ++ new) /\
    map slot_index new = map slot_label (seq i (length new)) /\
    Forall slot_ok new /\
    (forall g, length (filter (of_type g) new) <= 20 * names_count groups g).
Proof.
  induction groups as [|[ty sel] rest IH]; intros i acc w.
  - exists []; rewrite Nat.add_0_r, app_nil_r; repeat split; auto.
  - cbn [extract_groups]; cbv beta iota delta [bind try_except call ret].
    destruct (env_find_elements env sel) as [elements|e].
    + destruct (extract_elems_spec ty (firstn 20 elements) i acc)
        as (new1 & E1 & Hl1 & Hf1 & Hm1).
      rewrite E1; simpl fst; simpl snd.
      match goal with |- context [extract_groups env rest _ _ ?w'] =>
        destruct (IH (i + length new1) (acc ++ new1) w') as (new2 & E2 & Hm2 & Hf2 & Hc2)
      end.
      exists (new1 ++ new2); rewrite E2, <- app_assoc, length_app, Nat.add_assoc.
      split; [reflexivity|]; split; [|split].
      * rewrite seq_app, !map_app, Hm1, Hm2; reflexivity.
      * apply Forall_app; split; [|exact Hf2].
        eapply Forall_impl; [|exact Hf1]; simpl; tauto.
      * intros g; rewrite filter_app, length_app, (filter_of_type_single ty g new1 Hf1).
        specialize (Hc2 g); pose proof (firstn_le_length 20 elements).
        unfold names_count; simpl.
        destruct (list_eq_dec Z.eq_dec ty g); unfold names_count in Hc2; lia.
    + simpl fst; simpl snd.
      match goal with |- context [extract_groups env rest _ _ ?w'] =>
        destruct (IH i acc w') as (new2 & E2 & Hm2 & Hf2 & Hc2)
      end.
      exists new2; repeat split; auto.
      intros g; specialize (Hc2 g); unfold names_count in *; simpl.
      destruct (list_eq_dec Z.eq_dec ty g); lia.
Qed.

Lemma extract_slots_spec env w :
  let slots := r_slots (w_results (snd (extract_slots env w))) in
  map slot_index slots = map slot_label (seq 1 (length slots)) /\
  Forall slot_ok slots /\
  (forall g, length (filter (of_type g) slots) <= 20 * names_count SLOT_SELECTORS g).
Proof.
  destruct (extract_groups_spec env SLOT_SELECTORS 1 [] w) as (new & E & Hm & Hf & Hc).
  cbv zeta; unfold extract_slots, bind.
  destruct (extract_groups env SLOT_SELECTORS 1 [] w) as [r w1]; cbn [fst] in E; subst r.
  simpl; split; [exact Hm|split; [exact Hf|exact Hc]].
Qed.

Lemma slot_selectors_names_nodup : NoDup (map fst SLOT_SELECTORS).
Proof.
  vm_compute; repeat constructor; intros H; repeat destruct H as [H|H];
    try discriminate; contradiction.
Qed.

Lemma slot_selectors_names_distinct g : names_count SLOT_SELECTORS g <= 1.
Proof.
  exact (proj1 (NoDup_count_occ (list_eq_dec Z.eq_dec) _)
           slot_selectors_names_nodup g).
Qed.

(** ** Reading a label back *)

Definition digit_val (c : Z) : nat := Z.to_nat (c - 48).

Definition dec_val (s : pystr) : nat :=
  fold_left (fun acc c => acc * 10 + digit_val c) s 0.

Lemma dec_val_snoc s c : dec_val (s ++ [c]) = dec_val s * 10 + digit_val c.
Proof. unfold dec_val; rewrite fold_left_app; reflexivity. Qed.

Lemma dec_val_digits f n : n < f -> dec_val (digits_fuel f n) = n.
Proof.
  revert n; induction f as [|f IH]; intros n Hn; [lia|].
  cbn [digits_fuel].
  destruct (n <? 10) eqn:E.
  - change (dec_val [48 + Z.of_nat n]%Z) with (0 * 10 + digit_val (48 + Z.of_nat n)%Z).
    unfold digit_val.
    replace (48 + Z.of_nat n - 48)%Z with (Z.of_nat n) by lia.
    rewrite Nat2Z.id; lia.
  - apply Nat.ltb_ge in E.
    rewrite dec_val_snoc, IH.
    + unfold digit_val.
      replace (48 + Z.of_nat (n mod 10) - 48)%Z with (Z.of_nat (n mod 10)) by lia.
      rewrite Nat2Z.id; pose proof (Nat.div_mod_eq n 10); lia.
    + apply Nat.lt_le_trans with n; [apply Nat.div_lt; lia|lia].
Qed.

Lemma dec_val_zeros k s : dec_val (repeat 48%Z k ++ s) = dec_val s.
Proof.
  unfold dec_val; rewrite fold_left_app; f_equal.
  induction k as [|k IH]; simpl; auto.
Qed.

Lemma dec_val_format_02d n : dec_val (format_02d n) = n.
Proof.
  unfold format_02d, decimal; rewrite dec_val_zeros; apply dec_val_digits; lia.
Qed.

Lemma slot_label_inj n m : slot_label n = slot_label m -> n = m.
Proof.
  unfold slot_label; intros H; apply app_inv_head in H.
  rewrite <- (dec_val_format_02d n), <- (dec_val_format_02d m), H; reflexivity.
Qed.

Lemma nodup_map_labels l : NoDup l -> NoDup (map slot_label l).
Proof.
  induction 1 as [|x l Hx _ IH]; simpl; constructor; auto.
  rewrite in_map_iff; intros (y & Ey & Hy).
  apply slot_label_inj in Ey; subst; contradiction.
Qed.

(** C6: every record [extract_slots] produces has a text of at most 100
    characters, an [href] when its tag is [a], a [src] and an [alt] when
    its tag is [img]; no selector group contributes more than 20 records. *)
Theorem extracted_slots_bounded env w :
  let slots := r_slots (w_results (snd (extract_slots env w))) in
  Forall slot_ok slots /\
  (forall g, length (filter (of_type g) slots) <= 20).
Proof.
  destruct (extract_slots_spec env w) as (_ & Hf & Hc).
  split; [exact Hf|].
  intros g; specialize (Hc g); pose proof (slot_selectors_names_distinct g); lia.
Qed.

(** C4 (amended): the [k]-th record [extract_slots] produces has the index
    [f'S{k:02d}'] for [k = 1, 2, ...] over all the selector groups in turn;
    these indices are pairwise distinct. *)
Theorem slot_indices_sequential env w :
  let idx := map slot_index (r_slots (w_results (snd (extract_slots env w)))) in
  idx = map slot_label (seq 1 (length idx)) /\ NoDup idx.
Proof.
  destruct (extract_slots_spec env w) as (Hm & _ & _).
  cbv zeta; rewrite length_map, Hm.
  split; [reflexivity|apply nodup_map_labels, seq_NoDup].
Qed.

(** A page on which every slot selector matches 20 plain elements. *)
Definition crowded_env : Env :=
  demo_env [] (Ok tt)
    (fun _ => Ok (repeat (mk_elem (py "menu") (py "div") []) 20))
    (fun _ => Ok 200%Z) (Ok tt).

(** C4 (counterexample): on [crowded_env] the six groups give 120 records,
    and the 100th one is indexed [S100], which is not [S] followed by two
    digits. *)
Lemma slot_index_three_digits :
  let idx := map slot_index (r_slots (w_results (snd (extract_slots crowded_env init_world)))) in
  length idx = 120 /\ nth_error idx 99 = Some (py "S100") /\ length (py "S100") <> 3.
Proof. vm_compute; split; [reflexivity|split; [reflexivity|discriminate]]. Qed.

(** * Link checking *)

(** The state after appending the given calls to the trace. *)
Definition log_events (w : World) (evs : list Event) : World :=
  {| w_results := w_results w; w_driver := w_driver w; w_trace := w_trace w ++ evs |}.

Lemma log_events_app w e1 e2 : log_events (log_events w e1) e2 = log_events w (e1 ++ e2).
Proof. unfold log_events; simpl; rewrite app_assoc; reflexivity. Qed.

Lemma log_events_nil w : log_events w [] = w.
Proof. unfold log_events; rewrite app_nil_r; destruct w; reflexivity. Qed.

(** The [href] values of the anchors whose [get_attribute('href')]
    returns a string. *)
Fixpoint anchor_hrefs (links : list Elem) : list pystr :=
  match links with
  | [] => []
  | l :: rest =>
      match e_get_attribute l (py "href") with
      | Ok (Some u) => u :: anchor_hrefs rest
      | _ => anchor_hrefs rest
      end
  end.

(** The filter of [check_links] on one URL, the dedup test apart. *)
Definition checkable (u : pystr) : bool :=
  negb (str_eqb u []) && negb (startswith u (py "javascript:"))
  && negb (startswith u (py "#")).

(** The first occurrences in [l] of the URLs not in [seen]. *)
Fixpoint fresh_urls (seen l : list pystr) : list pystr :=
  match l with
  | [] => []
  | u :: l' =>
      if existsb (str_eqb u) seen then fresh_urls seen l'
      else u :: fresh_urls (seen ++ [u]) l'
  end.

Lemma existsb_str_eqb u l : existsb (str_eqb u) l = true <-> In u l.
Proof.
  rewrite existsb_exists; split.
  - intros (x & Hx & E); apply str_eqb_eq in E; subst; exact Hx.
  - intros H; exists u; split; [exact H|apply str_eqb_refl].
Qed.

Lemma fresh_urls_app seen l1 l2 :
  fresh_urls seen (l1 ++ l2) =
  fresh_urls seen l1 ++ fresh_urls (seen ++ fresh_urls seen l1) l2.
Proof.
  revert seen; induction l1 as [|u l1 IH]; intros seen; simpl.
  - rewrite app_nil_r; reflexivity.
  - destruct (existsb (str_eqb u) seen); [apply IH|].
    rewrite IH, <- app_assoc; reflexivity.
Qed.

Lemma fresh_urls_in seen l u :
  In u (fresh_urls seen l) -> In u l /\ ~ In u seen.
Proof.
  revert seen; induction l as [|v l IH]; intros seen; simpl; [tauto|].
  destruct (existsb (str_eqb v) seen) eqn:E.
  - intros H; apply IH in H; tauto.
  - intros [<-|H].
    + split; [tauto|]; rewrite <- existsb_str_eqb, E; discriminate.
    + apply IH in H as [H1 H2]; split; [tauto|].
      intros Hs; apply H2, in_or_app; tauto.
Qed.

Lemma fresh_urls_nodup seen l : NoDup (fresh_urls seen l).
Proof.
  revert seen; induction l as [|v l IH]; intros seen; simpl; [constructor|].
  destruct (existsb (str_eqb v) seen); [apply IH|].
  constructor; [|apply IH].
  intros H; apply fresh_urls_in in H as [_ H]; apply H, in_or_app; simpl; tauto.
Qed.

(** The loop invariant on the locals: every broken URL was checked, and
    no URL is broken twice. *)
Definition locals_ok (checked : list pystr) (broken : list BrokenLink) : Prop :=
  incl (map bl_url broken) checked /\ NoDup (map bl_url broken).

Lemma check_one_spec env link c b w :
  exists b1,
    let N := fresh_urls c (filter checkable (anchor_hrefs [link])) in
    check_one env link c b w = (Ok (c ++ N, b ++ b1), log_events w (map EvHead N)) /\
    (b1 = [] \/ exists bl, b1 = [bl] /\ N = [bl_url bl]).
Proof.
  cbv zeta; unfold check_one; cbn [anchor_hrefs].
  destruct (e_get_attribute link (py "href")) as [[url|]|e]; cbn [filter fresh_urls map];
    try (exists []; rewrite !app_nil_r, log_events_nil; auto; fail).
  unfold checkable.
  destruct (str_eqb url []) eqn:Ee; cbn [negb andb orb filter fresh_urls map].
  { exists []; rewrite !app_nil_r, log_events_nil; auto. }
  destruct (existsb (str_eqb url) c) eqn:Es; cbn [orb].
  { exists []; destruct (_ && _); cbn [filter fresh_urls map]; rewrite ?Es;
    rewrite !app_nil_r, log_events_nil; auto. }
  destruct (startswith url (py "javascript:")) eqn:Ej; cbn [negb andb orb filter fresh_urls map].
  { exists []; rewrite !app_nil_r, log_events_nil; auto. }
  destruct (startswith url (py "#")) eqn:Eh; cbn [negb andb orb filter fresh_urls map].
  { exists []; rewrite !app_nil_r, log_events_nil; auto. }
  rewrite Es; cbn [map]; unfold bind, attempt, call, ret.
  destruct (env_head env url) as [status|[m|m|m]];
    [destruct (400 <=? status)%Z|..];
    try destruct (e_text link) as [t|];
    first [ exists [{| bl_url := url; bl_status_code := HttpStatus status;
                       bl_text := trunc 50 t; bl_error := None |}];
            split; [reflexivity|right; eexists; split; reflexivity]
          | exists [{| bl_url := url; bl_status_code := StatusERROR;
                       bl_text := trunc 50 t;
                       bl_error := Some (firstn 50 (str_exn (RequestException m))) |}];
            split; [reflexivity|right; eexists; split; reflexivity]
          | exists []; split; [rewrite app_nil_r; reflexivity|left; reflexivity] ].
Qed.

Lemma anchor_hrefs_cons l rest : anchor_hrefs (l :: rest) = anchor_hrefs [l] ++ anchor_hrefs rest.
Proof. simpl; destruct (e_get_attribute l (py "href")) as [[u|]|e]; reflexivity. Qed.

Lemma check_loop_spec env links :
  forall c b w, locals_ok c b ->
  exists b',
    let N := fresh_urls c (filter checkable (anchor_hrefs links)) in
    check_loop env links c b w = (Ok (c ++ N, b ++ b'), log_events w (map EvHead N)) /\
    locals_ok (c ++ N) (b ++ b') /\ incl (map bl_url b') N.
Proof.
  induction links as [|l rest IH]; intros c b w Hok; cbv zeta.
  - exists []; simpl; rewrite !app_nil_r, log_events_nil; split; [reflexivity|].
    split; [exact Hok|intros x Hx; destruct Hx].
  - cbn [check_loop]; unfold bind at 1.
    destruct (check_one_spec env l c b w) as (b1 & E1 & Hb1); cbv zeta in E1.
    rewrite E1; cbn [fst snd].
    set (N1 := fresh_urls c (filter checkable (anchor_hrefs [l]))) in *.
    assert (Hok1 : locals_ok (c ++ N1) (b ++ b1)).
    { destruct Hok as [Hinc Hnd]; destruct Hb1 as [->|(bl & -> & HN)].
      - rewrite app_nil_r; split; [|exact Hnd].
        intros x Hx; apply in_or_app; left; apply Hinc, Hx.
      - assert (Hfresh : ~ In (bl_url bl) c).
        { apply (fresh_urls_in c (filter checkable (anchor_hrefs [l]))).
          fold N1; rewrite HN; simpl; tauto. }
        unfold locals_ok; rewrite map_app; simpl; split.
        + intros x Hx; apply in_app_or in Hx as [Hx|[<-|[]]]; apply in_or_app.
          * left; apply Hinc, Hx.
          * right; rewrite HN; simpl; tauto.
        + apply NoDup_app; [exact Hnd|repeat constructor; simpl; tauto|].
          intros x Hx [<-|[]]; apply Hfresh, Hinc, Hx. }
    destruct (IH (c ++ N1) (b ++ b1) (log_events w (map EvHead N1)) Hok1)
      as (b2 & E2 & Hok2 & Hinc2); cbv zeta in E2.
    exists (b1 ++ b2).
    rewrite anchor_hrefs_cons, filter_app, fresh_urls_app; fold N1.
    rewrite E2, log_events_app, <- map_app, !app_assoc.
    split; [reflexivity|split; [exact Hok2|]].
    rewrite map_app; intros x Hx; apply in_app_or in Hx as [Hx|Hx]; apply in_or_app.
    + left; destruct Hb1 as [->|(bl & -> & HN)]; [destruct Hx|].
      rewrite HN; exact Hx.
    + right; apply Hinc2, Hx.
Qed.

Lemma check_links_spec env w :
  match env_find_elements env (py "a[href]") with
  | Ok links =>
      let N := fresh_urls [] (filter checkable (anchor_hrefs (firstn 50 links))) in
      exists b',
        check_links env w =
          (Ok tt, {| w_results := set_links N b' (w_results w);
                     w_driver := w_driver w;
                     w_trace := w_trace w ++ EvFindElements (py "a[href]") :: map EvHead N |}) /\
        NoDup (map bl_url b') /\ incl (map bl_url b') N
  | Raise e =>
      check_links env w =
        (Ok tt, {| w_results := append_error (py "Link check error: " ++ str_exn e) (w_results w);
                   w_driver := w_driver w;
                   w_trace := w_trace w ++ [EvFindElements (py "a[href]")] |})
  end.
Proof.
  unfold check_links, try_except, bind at 1, call.
  destruct (env_find_elements env (py "a[href]")) as [links|e]; [|reflexivity].
  cbv zeta.
  set (w1 := {| w_results := w_results w; w_driver := w_driver w;
                w_trace := w_trace w ++ [EvFindElements (py "a[href]")] |}).
  assert (H0 : locals_ok [] []) by (split; [intros x []|constructor]).
  destruct (check_loop_spec env (firstn 50 links) [] [] w1 H0)
    as (b' & E & [_ Hnd] & Hinc); cbv zeta in E; simpl in Hnd.
  exists b'; unfold bind; rewrite E; split; [|split; [exact Hnd|exact Hinc]].
  unfold modify, log_events; simpl; rewrite <- app_assoc; reflexivity.
Qed.

Lemma checkable_true u :
  checkable u = true ->
  u <> [] /\ startswith u (py "javascript:") = false /\ startswith u (py "#") = false.
Proof.
  unfold checkable; intros H.
  destruct (str_eqb u []) eqn:E1, (startswith u (py "javascript:")),
    (startswith u (py "#")); try discriminate.
  split; [|split; reflexivity].
  intros ->; discriminate.
Qed.

(** C3 (amended): [check_links] queries the anchors once and then sends one
    HEAD request per URL, in order, for exactly the first occurrences of
    the [href] values of the first 50 anchors that are non-empty and start
    with neither [javascript:] nor [#]; so an empty, repeated,
    [javascript:] or [#] href is never requested, and any other scheme
    ([mailto:] included) is. *)
Theorem link_check_skips env w :
  exists heads,
    w_trace (snd (check_links env w)) =
      w_trace w ++ EvFindElements (py "a[href]") :: map EvHead heads /\
    heads = match env_find_elements env (py "a[href]") with
            | Ok links => fresh_urls [] (filter checkable (anchor_hrefs (firstn 50 links)))
            | Raise _ => []
            end /\
    NoDup heads /\
    (forall u, In u heads ->
       u <> [] /\ startswith u (py "javascript:") = false /\
       startswith u (py "#") = false).
Proof.
  pose proof (check_links_spec env w) as H.
  destruct (env_find_elements env (py "a[href]")) as [links|e].
  - cbv zeta in H; destruct H as (b' & E & _).
    eexists; rewrite E; split; [reflexivity|split; [reflexivity|split]].
    + apply fresh_urls_nodup.
    + intros u Hu; apply fresh_urls_in in Hu as [Hu _].
      apply filter_In in Hu as [_ Hu]; apply checkable_true, Hu.
  - exists []; rewrite H; simpl; split; [reflexivity|split; [reflexivity|split]].
    + constructor.
    + intros u [].
Qed.

Definition MAILTO : pystr := py "mailto:help@baemin.com".

(** A page with one [mailto:] anchor; [requests.head] raises
    [InvalidSchema] (a [RequestException]) on such a URL. *)
Definition mailto_env : Env :=
  demo_env [] (Ok tt)
    (fun sel => if str_eqb sel (py "a[href]")
                then Ok [anchor MAILTO (py "Contact")] else Ok [])
    (fun u => if startswith u (py "mailto:")
              then Raise (RequestException (py "No connection adapters were found"))
              else Ok 200%Z)
    (Ok tt).

(** C3 (counterexample): the [mailto:] href is sent a HEAD request and
    comes back as a broken link. *)
Lemma mailto_link_checked :
  let w := snd (check_links mailto_env init_world) in
  In (EvHead MAILTO) (w_trace w) /\
  map bl_url (r_broken_links (w_results w)) = [MAILTO].
Proof. vm_compute; split; [right; left; reflexivity|reflexivity]. Qed.

(** * Whole runs *)

Definition slot_queries : list Event :=
  map (fun g => EvFindElements (snd g)) SLOT_SELECTORS.

Lemma extract_groups_world env groups :
  forall i acc w,
    snd (extract_groups env groups i acc w) =
      log_events w (map (fun g => EvFindElements (snd g)) groups).
Proof.
  induction groups as [|[ty sel] rest IH]; intros i acc w.
  - simpl; rewrite log_events_nil; reflexivity.
  - cbn [extract_groups map]; cbv beta iota delta [bind try_except call ret].
    destruct (env_find_elements env sel); rewrite IH; unfold log_events; simpl;
      rewrite <- app_assoc; reflexivity.
Qed.

Lemma extract_slots_shape env w :
  exists slots,
    extract_slots env w =
      (Ok tt, {| w_results := set_slots slots (w_results w);
                 w_driver := w_driver w;
                 w_trace := w_trace w ++ slot_queries |}).
Proof.
  destruct (extract_groups_spec env SLOT_SELECTORS 1 [] w) as (new & E & _).
  pose proof (extract_groups_world env SLOT_SELECTORS 1 [] w) as Ew.
  exists new; unfold extract_slots, bind.
  destruct (extract_groups env SLOT_SELECTORS 1 [] w) as [r w1].
  cbn [fst snd] in E, Ew; subst r w1; reflexivity.
Qed.

(** The HEAD requests of a trace. *)
Definition heads_of (tr : list Event) : list pystr :=
  flat_map (fun ev => match ev with EvHead u => [u] | _ => [] end) tr.

(** Navigation of [load_page] fails: [driver.get] or the wait for [body]
    raises. *)
Definition nav_fails (env : Env) : Prop :=
  match env_get env (cfg_target_url env) with
  | Raise _ => True
  | Ok _ => match env_body_wait env with Raise _ => True | Ok _ => False end
  end.

Definition is_find (ev : Event) : bool :=
  match ev with EvFindElements _ => true | _ => false end.

(** Case analysis on what the environment answers, running the program
    forward; the two stages with loops are replaced by their shapes. *)
Ltac fwd :=
  cbv beta iota zeta delta [run run_body run_handler start stop login_with_cookies
    load_page scroll_page take_screenshot get_page_info
    bind try_except try_finally call lift ret modify set_driver get_driver get_results
    attempt fst snd w_results w_driver w_trace log_events
    set_status set_login_status append_error set_page_title set_current_url
    set_screenshot set_slots set_links
    r_status r_login_status r_slots r_broken_links r_total_slots r_total_links
    r_broken_link_count r_errors r_screenshot r_page_title r_current_url
    init_world init_results].

Ltac run_forward :=
  repeat (fwd;
    match goal with
    | |- context [extract_slots ?e ?w] =>
        let sl := fresh "slots" in let E := fresh "E" in
        destruct (extract_slots_shape e w) as (sl & E); rewrite E; clear E
    | |- context [check_links ?e ?w] =>
        let H := fresh "Hchk" in
        pose proof (check_links_spec e w) as H;
        destruct (env_find_elements e (py "a[href]")) eqn:?;
        [cbv zeta in H; let b := fresh "broken" in let E := fresh "E" in
         destruct H as (b & E & ?Hnd & ?Hinc); rewrite E; clear E
        |rewrite H; clear H]
    | |- context [match env_create_browser ?e with _ => _ end] => destruct (env_create_browser e)
    | |- context [if env_load_cookies ?e then _ else _] => destruct (env_load_cookies e)
    | |- context [match env_refresh ?e with _ => _ end] => destruct (env_refresh e)
    | |- context [match env_page_source ?e with _ => _ end] => destruct (env_page_source e)
    | |- context [if (contains ?s ?a && contains ?s ?b) then _ else _] =>
        destruct (contains s a && contains s b)
    | H : context [env_get ?e ?u] |- context [match env_get ?e ?u with _ => _ end] =>
        destruct (env_get e u)
    | |- context [match env_get ?e ?u with _ => _ end] => destruct (env_get e u)
    | H : context [env_body_wait ?e] |- context [match env_body_wait ?e with _ => _ end] =>
        destruct (env_body_wait e)
    | |- context [match env_body_wait ?e with _ => _ end] => destruct (env_body_wait e)
    | |- context [match env_title ?e with _ => _ end] => destruct (env_title e)
    | |- context [match env_current_url ?e with _ => _ end] => destruct (env_current_url e)
    | |- context [match env_mkdir ?e with _ => _ end] => destruct (env_mkdir e) eqn:?
    | |- context [match env_save_screenshot ?e with _ => _ end] => destruct (env_save_screenshot e)
    | |- context [match env_quit ?e with _ => _ end] => destruct (env_quit e)
    | |- context [match ?x with TimeoutException _ => _ | _ => _ end] => destruct x
    end).

(** C5: when navigation fails, the run ends with status [failed] or
    [error], no slots, no broken links, and no element query at all. *)
Theorem nav_failure_empty_result env :
  nav_fails env ->
  let w := snd (run env init_world) in
  (r_status (w_results w) = py "failed" \/ r_status (w_results w) = py "error") /\
  r_slots (w_results w) = [] /\ r_broken_links (w_results w) = [] /\
  filter is_find (w_trace w) = [].
Proof.
  intros Hnav; unfold nav_fails in Hnav.
  run_forward; try contradiction;
  repeat split; auto.
Qed.

Lemma heads_of_app a b : heads_of (a ++ b) = heads_of a ++ heads_of b.
Proof. unfold heads_of; apply flat_map_app. Qed.

Lemma heads_of_heads N : heads_of (map EvHead N) = N.
Proof. induction N as [|u N IH]; simpl; [reflexivity|f_equal; exact IH]. Qed.

Lemma heads_of_slot_queries : heads_of slot_queries = [].
Proof. reflexivity. Qed.

Lemma heads_of_cons ev tr :
  heads_of (ev :: tr) = match ev with EvHead u => [u] | _ => [] end ++ heads_of tr.
Proof. reflexivity. Qed.

(** The [href] values of the anchors [check_links] looks at. *)
Definition page_hrefs (env : Env) : list pystr :=
  match env_find_elements env (py "a[href]") with
  | Ok links => anchor_hrefs (firstn 50 links)
  | Raise _ => []
  end.

(** C8: over a whole run, no URL is sent two HEAD requests, no URL is
    reported broken twice, and every broken URL was requested and is the
    [href] of one of the anchors checked. *)
Theorem broken_links_unique env :
  let w := snd (run env init_world) in
  let urls := map bl_url (r_broken_links (w_results w)) in
  NoDup (heads_of (w_trace w)) /\ NoDup urls /\
  incl urls (heads_of (w_trace w)) /\ incl urls (page_hrefs env).
Proof.
  unfold page_hrefs.
  run_forward;
  repeat rewrite ?heads_of_app, ?heads_of_heads, ?heads_of_slot_queries, ?heads_of_cons;
  cbn [app];
  repeat split; try solve [constructor | intros x []];
  try rewrite ?app_nil_r;
  try solve [apply fresh_urls_nodup | assumption].
  all: intros x Hx; apply Hinc in Hx; apply fresh_urls_in in Hx as [Hx _];
       apply filter_In in Hx as [Hx _]; exact Hx.
Qed.

(** A page whose navigation times out. *)
Definition timeout_env : Env :=
  demo_env [] (Raise (TimeoutException (py "Message: timeout")))
    (fun _ => Ok []) (fun _ => Ok 200%Z) (Ok tt).

Lemma nav_failure_empty_result_witness :
  nav_fails timeout_env /\
  let w := snd (run timeout_env init_world) in
  (r_status (w_results w) = py "failed" \/ r_status (w_results w) = py "error") /\
  r_slots (w_results w) = [] /\ r_broken_links (w_results w) = [] /\
  filter is_find (w_trace w) = [].
Proof.
  split; [exact I|].
  apply (nav_failure_empty_result timeout_env); exact I.
Defined.

(** The run gets to [if self.load_page():] and navigation succeeds: the
    browser starts, [login_with_cookies] does not raise, and [driver.get]
    and the wait for [body] return. *)
Definition page_loads (env : Env) : Prop :=
  env_create_browser env = Ok tt /\
  (env_load_cookies env = false \/
   (env_refresh env = Ok tt /\ exists s, env_page_source env = Ok s)) /\
  env_get env (cfg_target_url env) = Ok tt /\
  env_body_wait env = Ok tt.


(** The driver calls of the stages after [load_page]: element queries
    ([extract_slots], [check_links]) and [save_screenshot]. *)
Definition is_stage_call (ev : Event) : bool :=
  match ev with EvFindElements _ | EvSaveScreenshot => true | _ => false end.

Lemma stage_calls_heads N : filter is_stage_call (map EvHead N) = [].
Proof. induction N as [|u N IH]; simpl; auto. Qed.

Lemma stage_calls_slot_queries : filter is_stage_call slot_queries = slot_queries.
Proof. reflexivity. Qed.

(** C1 (amended): once the page has loaded, whatever its content, the
    status becomes [success], or [error] when creating the screenshot
    directory raises (no status [blocked] is ever set); the run queries
    every slot selector, then the anchors for the link check, and saves a
    screenshot exactly when that directory could be created. *)
Theorem loaded_page_not_classified env :
  page_loads env ->
  let w := snd (run env init_world) in
  r_status (w_results w) =
    match env_mkdir env with Ok _ => py "success" | Raise _ => py "error" end /\
  filter is_stage_call (w_trace w) =
    slot_queries ++ EvFindElements (py "a[href]") ::
    match env_mkdir env with Ok _ => [EvSaveScreenshot] | Raise _ => [] end.
Proof.
  intros (Hs & Hl & Hg & Hb).
  destruct Hl as [Hl|(Hr & src & Hp)];
  run_forward; try discriminate;
  (split; [reflexivity|]);
  rewrite !filter_app; cbn [filter is_stage_call app];
  rewrite ?stage_calls_heads, stage_calls_slot_queries, <- ?app_assoc; cbn [app]; reflexivity.
Qed.

(** "차단" ("blocked"). *)
Definition BLOCKED_KEYWORD : pystr := [52264; 45800]%Z.

(** A page whose source contains [BLOCKED_KEYWORD] and not the login
    marker. *)
Definition blocked_env : Env :=
  demo_env (py "<p>" ++ BLOCKED_KEYWORD ++ py "</p>") (Ok tt)
    (fun _ => Ok []) (fun _ => Ok 200%Z) (Ok tt).

Lemma loaded_page_not_classified_witness :
  page_loads blocked_env /\
  let w := snd (run blocked_env init_world) in
  r_status (w_results w) =
    match env_mkdir blocked_env with Ok _ => py "success" | Raise _ => py "error" end /\
  filter is_stage_call (w_trace w) =
    slot_queries ++ EvFindElements (py "a[href]") ::
    match env_mkdir blocked_env with Ok _ => [EvSaveScreenshot] | Raise _ => [] end.
Proof.
  split.
  - split; [reflexivity|split; [left; reflexivity|split; reflexivity]].
  - apply (loaded_page_not_classified blocked_env).
    split; [reflexivity|split; [left; reflexivity|split; reflexivity]].
Defined.

(** C1 (counterexample): the page source of [blocked_env] contains the
    blocking keyword and lacks the marker, yet the run ends with status
    [success], and both slot extraction and link checking query the page. *)
Lemma blocked_page_extracted :
  let w := snd (run blocked_env init_world) in
  (exists s, env_page_source blocked_env = Ok s /\
     contains s BLOCKED_KEYWORD = true /\ contains s LOGIN_MARKER = false) /\
  r_status (w_results w) = py "success" /\
  filter is_find (w_trace w) = slot_queries ++ [EvFindElements (py "a[href]")].
Proof.
  split; [eexists; split; [reflexivity|split; vm_compute; reflexivity]|].
  vm_compute; split; reflexivity.
Qed.

(** * Teardown and [main] *)

(** A run where every stage succeeds and [driver.quit()] raises. *)
Definition quit_fails_env : Env :=
  demo_env [] (Ok tt) (fun _ => Ok []) (fun _ => Ok 200%Z)
    (Raise (OtherException (py "invalid session id"))).

(** C2 (code bug): on [quit_fails_env] the status is already [success]
    when [finally: self.stop()] runs; the exception of [driver.quit()]
    escapes [run], so [main] writes no JSON and the process exits with 1. *)
Theorem teardown_error_masks_status :
  r_status (w_results (snd (run quit_fails_env init_world))) = py "success" /\
  fst (run quit_fails_env init_world) = Raise (OtherException (py "invalid session id")) /\
  main quit_fails_env no_sink = Crashed (OtherException (py "invalid session id")) /\
  exit_code (main quit_fails_env no_sink) = 1%Z.
Proof. vm_compute; repeat split. Qed.




(** C10: when the page loads, the anchor query of [check_links] raises
    [e], and the screenshot directory, [driver.quit()] and the JSON write
    do not raise, [main] exits with 0, the status is [success], and the
    errors hold ["Link check error: " + str(e)]. *)
Theorem link_check_failure_still_success env sink e :
  page_loads env ->
  env_find_elements env (py "a[href]") = Raise e ->
  env_mkdir env = Ok tt -> env_quit env = Ok tt -> env_json_write env = Ok tt ->
  exists json, main env sink = Exited 0%Z json (save_to_sheets sink json) /\
    r_status json = py "success" /\
    In (py "Link check error: " ++ str_exn e) (r_errors json).
Proof.
  intros (Hs & Hl & Hg & Hb) Hf Hm Hq Hj.
  unfold main.
  destruct Hl as [Hl|(Hr & src & Hp)];
  run_forward; try discriminate; try congruence;
  injection Hf as ->; rewrite Hj, str_eqb_refl;
  eexists; (split; [reflexivity|split; [reflexivity|]]);
  rewrite ?in_app_iff; cbn [In]; repeat (first [left; reflexivity | right]).
Qed.

(** A page whose [a[href]] query raises. *)
Definition stale_links_env : Env :=
  demo_env [] (Ok tt)
    (fun sel => if str_eqb sel (py "a[href]")
                then Raise (OtherException (py "stale element reference")) else Ok [])
    (fun _ => Ok 200%Z) (Ok tt).

Lemma link_check_failure_still_success_witness :
  page_loads stale_links_env /\
  env_find_elements stale_links_env (py "a[href]") =
    Raise (OtherException (py "stale element reference")) /\
  exists json,
    main stale_links_env no_sink = Exited 0%Z json (save_to_sheets no_sink json) /\
    r_status json = py "success" /\
    In (py "Link check error: " ++ str_exn (OtherException (py "stale element reference")))
       (r_errors json).
Proof.
  split; [split; [reflexivity|split; [left; reflexivity|split; reflexivity]]|].
  split; [vm_compute; reflexivity|].
  apply (link_check_failure_still_success stale_links_env no_sink);
    [split; [reflexivity|split; [left; reflexivity|split; reflexivity]]
    |vm_compute; reflexivity|reflexivity|reflexivity|reflexivity].
Defined.


(** * Further properties of [run] *)

Definition is_quit (ev : Event) : bool :=
  match ev with EvQuit => true | _ => false end.

Lemma filter_heads_none (f : Event -> bool) N :
  (forall u, f (EvHead u) = false) -> filter f (map EvHead N) = [].
Proof. intros Hf; induction N as [|u N IH]; simpl; [reflexivity|rewrite Hf; exact IH]. Qed.

Lemma quit_slot_queries : filter is_quit slot_queries = [].
Proof. reflexivity. Qed.

(** [run] forward with the environment answers fixed by hypotheses put in
    place first, so that only the remaining ones are split on. *)
Ltac env_field f :=
  match f with
  | env_create_browser => idtac | env_load_cookies => idtac | env_refresh => idtac
  | env_page_source => idtac | env_body_wait => idtac | env_title => idtac
  | env_current_url => idtac | env_mkdir => idtac | env_save_screenshot => idtac
  | env_quit => idtac | env_json_write => idtac
  end.

Ltac use_env_hyps :=
  repeat match goal with
  | H : ?f ?e = _ |- context [?f ?e] => env_field f; rewrite H
  | H : env_get ?e ?u = _ |- context [env_get ?e ?u] => rewrite H
  | H : env_find_elements ?e ?u = _ |- context [env_find_elements ?e ?u] => rewrite H
  end.

Ltac run_with := repeat (fwd; use_env_hyps; run_forward).

(** The error [load_page] records for the exception of navigation. *)
Definition load_error_msg (e : exn) : pystr :=
  match e with
  | TimeoutException _ => py "Page load timeout"
  | _ => py "Page load error: " ++ str_exn e
  end.

(** [login_with_cookies] returns: no cookies, or [driver.refresh()] and
    [driver.page_source] do not raise. *)
Definition login_returns (env : Env) : Prop :=
  env_load_cookies env = false \/
  (env_refresh env = Ok tt /\ exists s, env_page_source env = Ok s).

(** [driver.get] raises [e], or it returns and the wait for [body]
    raises [e]. *)
Definition nav_raises (env : Env) (e : exn) : Prop :=
  env_get env (cfg_target_url env) = Raise e \/
  (env_get env (cfg_target_url env) = Ok tt /\ env_body_wait env = Raise e).

(** The [login_status] that [login_with_cookies] writes. *)
Definition login_verdict (env : Env) : pystr :=
  if env_load_cookies env then
    match env_page_source env with
    | Ok s => if contains s LOGIN_MARKER && contains s SECURITY_MARKER
              then py "failed" else py "success"
    | Raise _ => py "unknown"
    end
  else py "no_cookies".

(** An environment with the given answers for the browser start, the
    cookies, the refresh, the page source, navigation and the screenshot
    directory; everything else succeeds on an empty page. *)
Definition test_env (create : py_res unit) (cookies : bool) (refresh : py_res unit)
    (source : pystr) (nav : py_res unit) (mkdir : py_res unit) : Env := {|
  cfg_target_url := py "https://ceo.baemin.com";
  env_create_browser := create;
  env_load_cookies := cookies;
  env_refresh := refresh;
  env_page_source := Ok source;
  env_get := fun _ => nav;
  env_body_wait := Ok tt;
  env_title := Ok (py "Baemin CEO");
  env_current_url := Ok (py "https://ceo.baemin.com/");
  env_find_elements := fun _ => Ok [];
  env_head := fun _ => Ok 200%Z;
  env_mkdir := mkdir;
  env_screenshot_name := py "screenshots/screenshot_20260101_000000.png";
  env_save_screenshot := Ok tt;
  env_quit := Ok tt;
  env_json_write := Ok tt
|}.

Definition no_browser_env : Env :=
  test_env (Raise (OtherException (py "chromedriver not found"))) false (Ok tt) [] (Ok tt) (Ok tt).

Definition nav_timeout_env : Env :=
  test_env (Ok tt) false (Ok tt) [] (Raise (TimeoutException (py "timeout"))) (Ok tt).

Definition login_page_env : Env :=
  test_env (Ok tt) true (Ok tt) (LOGIN_MARKER ++ SECURITY_MARKER) (Ok tt) (Ok tt).

Definition refresh_fails_env : Env :=
  test_env (Ok tt) true (Raise (OtherException (py "no such window"))) [] (Ok tt) (Ok tt).

Definition readonly_disk_env : Env :=
  test_env (Ok tt) false (Ok tt) [] (Ok tt)
    (Raise (OtherException (py "[Errno 30] Read-only file system: 'screenshots'"))).

(** [driver.quit()] is called exactly when the browser started, and then
    as the last driver call of the run. *)
Theorem quit_iff_started env :
  let w := snd (run env init_world) in
  match env_create_browser env with
  | Ok _ => exists pre, w_trace w = pre ++ [EvQuit] /\ filter is_quit pre = []
  | Raise _ => filter is_quit (w_trace w) = []
  end.
Proof.
  run_forward; try reflexivity;
  eexists; (split; [reflexivity|]);
  rewrite ?filter_app; cbn [filter is_quit app];
  rewrite ?quit_slot_queries, ?(filter_heads_none is_quit) by reflexivity;
  reflexivity.
Qed.

(** When [create_browser()] raises [e], the run returns its results with
    status [error], the single error [str(e)], login status [unknown],
    no driver call after the attempt, and the process exits with 1. *)
Theorem start_failure_result env sink e :
  env_create_browser env = Raise e ->
  let w := snd (run env init_world) in
  fst (run env init_world) = Ok (w_results w) /\
  r_status (w_results w) = py "error" /\ r_errors (w_results w) = [str_exn e] /\
  r_login_status (w_results w) = py "unknown" /\ w_trace w = [EvCreateBrowser] /\
  exit_code (main env sink) = 1%Z.
Proof.
  intros Hc; unfold main, exit_code.
  run_with.
  all: try discriminate.
  all: repeat split; try reflexivity;
  destruct (env_json_write env); reflexivity.
Qed.

Lemma start_failure_result_witness :
  env_create_browser no_browser_env = Raise (OtherException (py "chromedriver not found")) /\
  let w := snd (run no_browser_env init_world) in
  fst (run no_browser_env init_world) = Ok (w_results w) /\
  r_status (w_results w) = py "error" /\
  r_errors (w_results w) = [str_exn (OtherException (py "chromedriver not found"))] /\
  r_login_status (w_results w) = py "unknown" /\ w_trace w = [EvCreateBrowser] /\
  exit_code (main no_browser_env no_sink) = 1%Z.
Proof.
  split; [reflexivity|].
  apply (start_failure_result no_browser_env no_sink); reflexivity.
Defined.

(** When navigation raises [e] (the browser started, the login check
    returned), the first error is the one [load_page] records for [e] and
    the screenshot is still attempted: the status is [failed], or [error]
    with [str(e')] as a second error when creating the screenshot
    directory raises [e']; the screenshot is saved only when both the
    directory and [save_screenshot] succeed; the process exits with 1 in
    every case, a raising [driver.quit()] or JSON write included. *)
Theorem nav_failure_result env sink e :
  env_create_browser env = Ok tt -> login_returns env -> nav_raises env e ->
  let w := snd (run env init_world) in
  r_status (w_results w) =
    match env_mkdir env with Ok _ => py "failed" | Raise _ => py "error" end /\
  r_errors (w_results w) =
    load_error_msg e :: match env_mkdir env with Ok _ => [] | Raise e' => [str_exn e'] end /\
  r_screenshot (w_results w) =
    match env_mkdir env, env_save_screenshot env with
    | Ok _, Ok _ => Some (env_screenshot_name env) | _, _ => None end /\
  exit_code (main env sink) = 1%Z.
Proof.
  intros Hc Hl Hn; unfold main, exit_code.
  destruct Hl as [Hl|(Hr & src & Hp)]; destruct Hn as [Hn|(Hn & Hb)].
  all: run_with.
  all: (try discriminate; try congruence).
  all: repeat split; try reflexivity;
  destruct (env_json_write env); reflexivity.
Qed.

Lemma nav_failure_result_witness :
  (env_create_browser nav_timeout_env = Ok tt /\ login_returns nav_timeout_env /\
   nav_raises nav_timeout_env (TimeoutException (py "timeout"))) /\
  let w := snd (run nav_timeout_env init_world) in
  r_status (w_results w) =
    match env_mkdir nav_timeout_env with Ok _ => py "failed" | Raise _ => py "error" end /\
  r_errors (w_results w) =
    load_error_msg (TimeoutException (py "timeout")) ::
      match env_mkdir nav_timeout_env with Ok _ => [] | Raise e' => [str_exn e'] end /\
  r_screenshot (w_results w) =
    match env_mkdir nav_timeout_env, env_save_screenshot nav_timeout_env with
    | Ok _, Ok _ => Some (env_screenshot_name nav_timeout_env) | _, _ => None end /\
  exit_code (main nav_timeout_env no_sink) = 1%Z.
Proof.
  split.
  - split; [reflexivity|split; left; reflexivity].
  - apply (nav_failure_result nav_timeout_env no_sink (TimeoutException (py "timeout")));
      [reflexivity|left; reflexivity|left; reflexivity].
Defined.

(** Once the page loads, the login status is what [login_with_cookies]
    found ([no_cookies], or [failed] when the refreshed page still shows
    both login markers, else [success]), and the run status does not
    depend on it: [success], or [error] when creating the screenshot
    directory raises. A failed cookie login never stops the monitoring. *)
Theorem login_status_not_blocking env :
  page_loads env ->
  let w := snd (run env init_world) in
  r_login_status (w_results w) = login_verdict env /\
  r_status (w_results w) =
    match env_mkdir env with Ok _ => py "success" | Raise _ => py "error" end.
Proof.
  intros (Hs & Hl & Hg & Hb); unfold login_verdict.
  destruct Hl as [Hl|(Hr & src & Hp)].
  all: run_with.
  all: try discriminate.
  all: split; reflexivity.
Qed.

Lemma login_status_not_blocking_witness :
  page_loads login_page_env /\
  let w := snd (run login_page_env init_world) in
  r_login_status (w_results w) = login_verdict login_page_env /\
  r_status (w_results w) =
    match env_mkdir login_page_env with Ok _ => py "success" | Raise _ => py "error" end.
Proof.
  assert (Hp : page_loads login_page_env).
  { split; [reflexivity|split; [right; split; [reflexivity|eexists; reflexivity]|
      split; reflexivity]]. }
  split; [exact Hp|].
  apply (login_status_not_blocking login_page_env); exact Hp.
Defined.

(** When cookies were loaded and [driver.refresh()] raises [e], the run
    stops there: status [error], the single error [str(e)], login status
    [unknown], no element query, [driver.quit()] still called, exit code
    1, whether or not [driver.quit()] raises in turn. *)
Theorem refresh_failure_aborts env sink e :
  env_create_browser env = Ok tt -> env_load_cookies env = true ->
  env_refresh env = Raise e ->
  let w := snd (run env init_world) in
  r_status (w_results w) = py "error" /\ r_errors (w_results w) = [str_exn e] /\
  r_login_status (w_results w) = py "unknown" /\
  filter is_find (w_trace w) = [] /\ In EvQuit (w_trace w) /\
  exit_code (main env sink) = 1%Z.
Proof.
  intros Hc Hl Hr; unfold main, exit_code.
  run_with.
  all: try discriminate.
  all: repeat split; try reflexivity.
  all: try (simpl; tauto).
  all: destruct (env_json_write env); reflexivity.
Qed.

Lemma refresh_failure_aborts_witness :
  (env_create_browser refresh_fails_env = Ok tt /\ env_load_cookies refresh_fails_env = true /\
   env_refresh refresh_fails_env = Raise (OtherException (py "no such window"))) /\
  let w := snd (run refresh_fails_env init_world) in
  r_status (w_results w) = py "error" /\
  r_errors (w_results w) = [str_exn (OtherException (py "no such window"))] /\
  r_login_status (w_results w) = py "unknown" /\
  filter is_find (w_trace w) = [] /\ In EvQuit (w_trace w) /\
  exit_code (main refresh_fails_env no_sink) = 1%Z.
Proof.
  split; [repeat split|].
  apply (refresh_failure_aborts refresh_fails_env no_sink); reflexivity.
Defined.

(** When the page loads and creating the screenshot directory raises [e],
    the run ends with status [error], [str(e)] as the last error, no
    screenshot, and exit code 1. *)
Theorem screenshot_dir_failure env sink e :
  page_loads env -> env_mkdir env = Raise e ->
  let w := snd (run env init_world) in
  r_status (w_results w) = py "error" /\
  (exists pre, r_errors (w_results w) = pre ++ [str_exn e]) /\
  r_screenshot (w_results w) = None /\
  exit_code (main env sink) = 1%Z.
Proof.
  intros (Hs & Hl & Hg & Hb) Hm; unfold main, exit_code.
  destruct Hl as [Hl|(Hr & src & Hp)].
  all: run_with.
  all: try discriminate.
  all: (split; [reflexivity|split; [eexists; reflexivity|split; [reflexivity|]]]);
       try reflexivity; destruct (env_json_write env); reflexivity.
Qed.

Lemma screenshot_dir_failure_witness :
  let e := OtherException (py "[Errno 30] Read-only file system: 'screenshots'") in
  (page_loads readonly_disk_env /\ env_mkdir readonly_disk_env = Raise e) /\
  let w := snd (run readonly_disk_env init_world) in
  r_status (w_results w) = py "error" /\
  (exists pre, r_errors (w_results w) = pre ++ [str_exn e]) /\
  r_screenshot (w_results w) = None /\
  exit_code (main readonly_disk_env no_sink) = 1%Z.
Proof.
  assert (Hp : page_loads readonly_disk_env).
  { split; [reflexivity|split; [left; reflexivity|split; reflexivity]]. }
  split; [split; [exact Hp|reflexivity]|].
  apply (screenshot_dir_failure readonly_disk_env no_sink); [exact Hp|reflexivity].
Defined.

(** Once the page loads, [page_title] is set exactly when [driver.title]
    answers, and [current_url] only when both [driver.title] and
    [driver.current_url] answer (a failing title skips the URL). *)
Theorem page_info_fields env :
  page_loads env ->
  let w := snd (run env init_world) in
  r_page_title (w_results w) =
    match env_title env with Ok t => Some t | Raise _ => None end /\
  r_current_url (w_results w) =
    match env_title env, env_current_url env with
    | Ok _, Ok u => Some u | _, _ => None end.
Proof.
  intros (Hs & Hl & Hg & Hb).
  destruct Hl as [Hl|(Hr & src & Hp)].
  all: run_with.
  all: try discriminate.
  all: split; reflexivity.
Qed.

Lemma page_info_fields_witness :
  page_loads readonly_disk_env /\
  let w := snd (run readonly_disk_env init_world) in
  r_page_title (w_results w) =
    match env_title readonly_disk_env with Ok t => Some t | Raise _ => None end /\
  r_current_url (w_results w) =
    match env_title readonly_disk_env, env_current_url readonly_disk_env with
    | Ok _, Ok u => Some u | _, _ => None end.
Proof.
  assert (Hp : page_loads readonly_disk_env).
  { split; [reflexivity|split; [left; reflexivity|split; reflexivity]]. }
  split; [exact Hp|].
  apply (page_info_fields readonly_disk_env); exact Hp.
Defined.

(** After any run, [total_links] is the number of HEAD requests sent, and
    [broken_link_count] is at most [total_links]. *)
Theorem total_links_counts_heads env :
  let w := snd (run env init_world) in
  r_total_links (w_results w) = length (heads_of (w_trace w)) /\
  r_broken_link_count (w_results w) <= r_total_links (w_results w).
Proof.
  run_forward;
  repeat rewrite ?heads_of_app, ?heads_of_heads, ?heads_of_slot_queries, ?heads_of_cons;
  cbn [app length]; rewrite ?app_nil_r;
  (split; [reflexivity|]); try lia;
  rewrite <- (length_map bl_url); apply NoDup_incl_length; assumption.
Qed.
Definition bl_ok (bl : BrokenLink) : Prop :=
  length (bl_text bl) <= 50 /\
  match bl_status_code bl with
  | HttpStatus c => (400 <= c)%Z /\ bl_error bl = None
  | StatusERROR => exists m, bl_error bl = Some m /\ length m <= 50
  end.

Lemma check_one_bl env link c b w :
  match fst (check_one env link c b w) with
  | Ok (_, b') => exists b1, b' = b ++ b1 /\ Forall bl_ok b1
  | Raise _ => True
  end.
Proof.
  unfold check_one.
  destruct (e_get_attribute link (py "href")) as [[url|]|e];
    try (exists []; rewrite app_nil_r; auto; fail).
  destruct (str_eqb url [] || existsb (str_eqb url) c);
    [exists []; rewrite app_nil_r; auto|].
  destruct (startswith url (py "javascript:") || startswith url (py "#"));
    [exists []; rewrite app_nil_r; auto|].
  unfold bind, attempt, call, ret; cbn [fst].
  destruct (env_head env url) as [status|[m|m|m]];
    [destruct (400 <=? status)%Z eqn:E|..].
  all: try destruct (e_text link) as [t|]; cbn [fst].
  all: try (exists []; rewrite app_nil_r; split; [reflexivity|constructor]; fail).
  all: eexists; split; [reflexivity|].
  all: apply Forall_cons; [|apply Forall_nil]; split; cbn [bl_text bl_status_code bl_error].
  all: first [ apply trunc_length
             | split; [apply Z.leb_le, E|reflexivity]
             | eexists; split; [reflexivity|apply firstn_le_length] ].
Qed.

Lemma check_loop_bl env links :
  forall c b w, Forall bl_ok b ->
  match fst (check_loop env links c b w) with
  | Ok (_, b') => Forall bl_ok b'
  | Raise _ => True
  end.
Proof.
  induction links as [|l rest IH]; intros c b w Hb; cbn [check_loop].
  - exact Hb.
  - unfold bind at 1.
    pose proof (check_one_bl env l c b w) as H.
    destruct (check_one env l c b w) as [[[c1 b1]|e] w1]; cbn [fst] in H.
    + destruct H as (b2 & -> & Hb2); apply IH, Forall_app; split; assumption.
    + exact I.
Qed.

Lemma check_links_bl env :
  preserves (on_results (fun r => Forall bl_ok (r_broken_links r))) (check_links env).
Proof.
  intros w Hw; unfold check_links, try_except, bind, call.
  destruct (env_find_elements env (py "a[href]")) as [links|e]; [|exact Hw].
  match goal with |- context [check_loop ?e ?l ?c ?b ?w'] =>
    pose proof (check_loop_bl e l c b w' (Forall_nil _)) as H;
    pose proof (check_loop_preserves e (fun r => Forall bl_ok (r_broken_links r)) l c b w' Hw) as H';
    destruct (check_loop e l c b w') as [[[c' b']|e'] w1]
  end; cbn [fst snd] in *; [exact H|exact H'].
Qed.

(** Every recorded broken link has a text of at most 50 characters and
    is either an HTTP status of at least 400 with no error, or [ERROR]
    with an error message of at most 50 characters. *)
Theorem broken_links_well_formed env :
  Forall bl_ok (r_broken_links (w_results (snd (run env init_world)))).
Proof.
  apply (run_preserves env (fun r => Forall bl_ok (r_broken_links r)));
    try (intros; assumption).
  - unfold extract_slots; pres; assumption.
  - apply check_links_bl.
  - constructor.
Qed.

Definition slot_keys (s : Slot) : Prop :=
  (slot_href s <> None <-> slot_tag s = py "a") /\
  (slot_src s <> None <-> slot_tag s = py "img") /\
  (slot_alt s <> None <-> slot_tag s = py "img").

Lemma build_slot_keys i ty elem s :
  build_slot i ty elem = Ok s -> slot_type s = ty /\ slot_keys s.
Proof.
  unfold build_slot.
  destruct (e_text elem) as [text|]; [|discriminate].
  destruct (e_tag_name elem) as [tag|]; [|discriminate].
  destruct (e_is_displayed elem) as [vis|]; [|discriminate].
  destruct (str_eqb tag (py "a")) eqn:Ea;
    [destruct (e_get_attribute elem (py "href")) as [h|]; [|discriminate]|];
  (destruct (str_eqb tag (py "img")) eqn:Ei;
    [destruct (e_get_attribute elem (py "src")) as [sv|]; [|discriminate];
     destruct (e_get_attribute elem (py "alt")) as [av|]; [|discriminate]|]);
  intros H; injection H as <-; unfold slot_keys;
  cbn [slot_type slot_href slot_src slot_alt slot_tag fst snd];
  (split; [reflexivity|]);
  repeat split; intros Hx; try congruence;
  repeat match goal with
         | E : str_eqb _ _ = true |- _ => apply str_eqb_eq in E
         end;
  try assumption;
  try (subst tag; first [rewrite str_eqb_refl in *; discriminate
                        | vm_compute in Hx; discriminate]).
Qed.

Lemma extract_elems_keys ty els :
  forall i acc, exists new,
    extract_elems ty els i acc = (i + length new, acc ++ new) /\
    length new <= length els /\
    Forall (fun s => slot_type s = ty /\ slot_keys s) new.
Proof.
  induction els as [|elem rest IH]; intros i acc; simpl.
  - exists []; rewrite Nat.add_0_r, app_nil_r; simpl; repeat split; auto.
  - destruct (build_slot i ty elem) as [s|e] eqn:Eb.
    + destruct (IH (S i) (acc ++ [s])) as (new & E & Hl & Hf).
      apply build_slot_keys in Eb.
      exists (s :: new); rewrite E, <- app_assoc; simpl.
      repeat split; [f_equal; lia|lia|constructor; auto].
    + destruct (IH i acc) as (new & E & Hl & Hf).
      exists new; repeat split; auto.
Qed.

Definition block_ok (g : pystr * pystr) (block : list Slot) : Prop :=
  length block <= 20 /\ Forall (fun s => slot_type s = fst g /\ slot_keys s) block.

Lemma extract_groups_blocks env groups :
  forall i acc w, exists blocks,
    fst (extract_groups env groups i acc w) =
      Ok (i + length (concat blocks), acc ++ concat blocks) /\
    Forall2 block_ok groups blocks.
Proof.
  induction groups as [|[ty sel] rest IH]; intros i acc w.
  - exists []; cbn; rewrite Nat.add_0_r, app_nil_r; split; [reflexivity|constructor].
  - cbn [extract_groups]; cbv beta iota delta [bind try_except call ret].
    destruct (env_find_elements env sel) as [elements|e].
    + destruct (extract_elems_keys ty (firstn 20 elements) i acc) as (new1 & E1 & Hl1 & Hf1).
      rewrite E1; cbn [fst snd].
      match goal with |- context [extract_groups env rest _ _ ?w'] =>
        destruct (IH (i + length new1) (acc ++ new1) w') as (bs & E2 & Hb)
      end.
      exists (new1 :: bs); cbn [concat]; rewrite E2, <- app_assoc, length_app, Nat.add_assoc.
      split; [reflexivity|constructor; [|exact Hb]].
      split; [pose proof (firstn_le_length 20 elements); lia|exact Hf1].
    + cbn [fst snd].
      match goal with |- context [extract_groups env rest _ _ ?w'] =>
        destruct (IH i acc w') as (bs & E2 & Hb)
      end.
      exists ([] :: bs); cbn [concat app]; rewrite E2.
      split; [reflexivity|constructor; [|exact Hb]].
      split; [cbn; lia|constructor].
Qed.

Definition slots_blocked (r : Results) : Prop :=
  exists blocks, r_slots r = concat blocks /\ Forall2 block_ok SLOT_SELECTORS blocks.

Lemma run_slots_blocked env : on_results slots_blocked (snd (run env init_world)).
Proof.
  apply (run_preserves env slots_blocked); try (intros; assumption).
  - intros w _; unfold extract_slots, bind.
    destruct (extract_groups_blocks env SLOT_SELECTORS 1 [] w) as (bs & E & Hb).
    destruct (extract_groups env SLOT_SELECTORS 1 [] w) as [r w1]; cbn [fst] in E; subst r.
    exists bs; split; [reflexivity|exact Hb].
  - unfold check_links; pres; assumption.
  - exists [[]; []; []; []; []; []]; split; [reflexivity|].
    repeat constructor.
Qed.

(** The slots are the concatenation of one block per entry of
    [SLOT_SELECTORS], in that order; each block holds at most 20 slots,
    all of the entry's type. *)
Theorem slots_grouped_in_selector_order env :
  exists blocks,
    r_slots (w_results (snd (run env init_world))) = concat blocks /\
    Forall2 (fun g block => length block <= 20 /\
                            Forall (fun s => slot_type s = fst g) block)
            SLOT_SELECTORS blocks.
Proof.
  destruct (run_slots_blocked env) as (bs & E & Hb).
  exists bs; split; [exact E|].
  eapply Forall2_impl; [|exact Hb].
  intros g bl [Hl Hf]; split; [exact Hl|].
  eapply Forall_impl; [|exact Hf]; simpl; tauto.
Qed.

(** A slot has an [href] exactly when its tag is [a], and a [src] and an
    [alt] exactly when its tag is [img]. *)
Theorem slot_keys_by_tag env :
  Forall slot_keys (r_slots (w_results (snd (run env init_world)))).
Proof.
  destruct (run_slots_blocked env) as (bs & E & Hb); rewrite E; clear E.
  apply Forall_concat.
  induction Hb as [|g bl gs bs [_ Hf] _ IH]; [constructor|].
  constructor; [|exact IH].
  eapply Forall_impl; [|exact Hf]; simpl; tauto.
Qed.

(** * [save_to_sheets] and the Sheets client *)

(** A value written to or read from a sheet row: a [str] or an [int]. *)
Inductive cell :=
  | CStr (s : pystr)
  | CInt (n : nat).

(** [save_to_sheets]: the [row_data] list built from [results]; [date]
    and [time] are the strings [__init__] stored. *)
Definition row_data (date time : pystr) (r : Results) : list cell :=
  [CStr date; CStr time;
   CStr (match r_page_title r with Some t => t | None => [] end);
   CStr (r_status r);
   CStr (r_login_status r);
   CInt (r_total_slots r);
   CInt (r_total_links r);
   CInt (r_broken_link_count r);
   CStr (join (py ", ") (map bl_url (firstn 5 (r_broken_links r))));
   CStr (match r_errors r with [] => [] | _ => join (py ", ") (firstn 3 (r_errors r)) end)]
  ++ flat_map (fun s => [CStr (slot_type s); CStr (firstn 50 (slot_text s))])
              (firstn 10 (r_slots r)).

(** ** [sheets_manager.GoogleSheetsManager] *)

Definition KO_TYPE : pystr := [53440; 51077]%Z.      (* 타입 *)
Definition KO_CONTENT : pystr := [45236; 50857]%Z.   (* 내용 *)
Definition HDR_TOTAL_SLOTS : pystr := [52509; 49836; 47215; 49688]%Z.  (* 총슬롯수 *)
Definition HDR_TOTAL_LINKS : pystr := [52509; 47553; 53356; 49688]%Z.  (* 총링크수 *)
Definition HDR_BROKEN_COUNT : pystr := [44648; 51652; 47553; 53356; 49688]%Z.  (* 깨진링크수 *)
Definition HDR_BROKEN_LIST : pystr := [44648; 51652; 47553; 53356; 47785; 47197]%Z.
  (* 깨진링크목록 *)
Definition HDR_ERRORS : pystr := [50724; 47448]%Z.  (* 오류 *)

(** The [headers] list of [_add_headers]. *)
Definition HEADERS : list pystr := [
  [45216; 51676]%Z;                       (* 날짜 *)
  [49884; 44036]%Z;                       (* 시간 *)
  [54168; 51060; 51648; 51228; 47785]%Z;  (* 페이지제목 *)
  [49345; 53468]%Z;                       (* 상태 *)
  HDR_TOTAL_SLOTS; HDR_TOTAL_LINKS; HDR_BROKEN_COUNT; HDR_BROKEN_LIST; HDR_ERRORS;
  py "S01_" ++ KO_TYPE; py "S01_" ++ KO_CONTENT;
  py "S02_" ++ KO_TYPE; py "S02_" ++ KO_CONTENT;
  py "S03_" ++ KO_TYPE; py "S03_" ++ KO_CONTENT;
  py "S04_" ++ KO_TYPE; py "S04_" ++ KO_CONTENT;
  py "S05_" ++ KO_TYPE; py "S05_" ++ KO_CONTENT;
  py "S06_" ++ KO_TYPE; py "S06_" ++ KO_CONTENT;
  py "S07_" ++ KO_TYPE; py "S07_" ++ KO_CONTENT;
  py "S08_" ++ KO_TYPE; py "S08_" ++ KO_CONTENT;
  py "S09_" ++ KO_TYPE; py "S09_" ++ KO_CONTENT;
  py "S10_" ++ KO_TYPE; py "S10_" ++ KO_CONTENT
].

(** The default [sheet_name]: 모니터링로그. *)
Definition SHEET_NAME : pystr := [47784; 45768; 53552; 47553; 47196; 44536]%Z.

(** Exceptions of the Sheets client: [googleapiclient.errors.HttpError],
    the only one the module catches, or any other. *)
Inductive sexn :=
  | HttpError (msg : pystr)
  | SheetsOther (e : exn).

Inductive s_res (A : Type) :=
  | SOk (a : A)
  | SRaise (e : sexn).
Arguments SOk {A} a.
Arguments SRaise {A} e.

(** What the Google API answers; each [.execute()] may raise. *)
Record SheetsApi := {
  api_credentials_exist : bool;          (* Path('credentials.json').exists() *)
  api_build : py_res unit;               (* from_service_account_file + build *)
  api_get : s_res (option (list (option pystr)));
      (* spreadsheets().get(...).execute(): its 'sheets' (None: key absent),
         each sheet's ['properties']['title'] (None: a KeyError) *)
  api_batch_update : s_res unit;         (* spreadsheets().batchUpdate(...).execute() *)
  api_update : s_res unit;               (* values().update(...).execute() *)
  api_append : s_res unit;               (* values().append(...).execute() *)
  api_values : s_res (option (list (list cell)))
      (* values().get(...).execute(): its 'values' (None: key absent) *)
}.

(** The requests sent, in order. *)
Inductive ApiCall :=
  | CallGet
  | CallBatchUpdate (title : pystr)
  | CallUpdate (range : pystr) (values : list (list cell))
  | CallAppend (range : pystr) (values : list (list cell))
  | CallValuesGet (range : pystr).

Definition CREDENTIALS_MISSING : pystr :=
  py "credentials.json " ++ [54028; 51068; 51012]%Z ++ py " " ++ [52286; 51012]%Z ++
  py " " ++ [49688]%Z ++ py " " ++ [50630; 49845; 45768; 45796]%Z ++
  py ". GitHub Secrets" ++ [50640; 49436]%Z ++ py " GOOGLE_CREDENTIALS" ++
  [47484]%Z ++ py " " ++ [49444; 51221; 54616; 49464; 50836]%Z ++ py ".".

Definition AUTH_FAILED : pystr :=
  py "Google API " ++ [51064; 51613]%Z ++ py " " ++ [49892; 54056]%Z ++ py ": ".

(** [GoogleSheetsManager.__init__] / [_authenticate]: [FileNotFoundError]
    outside the [try], [RuntimeError] for any failure inside it. *)
Definition authenticate (api : SheetsApi) : py_res unit :=
  if negb (api_credentials_exist api) then Raise (OtherException CREDENTIALS_MISSING)
  else
    match api_build api with
    | Ok _ => Ok tt
    | Raise e => Raise (OtherException (AUTH_FAILED ++ str_exn e))
    end.

(** [[s['properties']['title'] for s in sheets]]: [None] on a KeyError. *)
Fixpoint sheet_titles (sheets : list (option pystr)) : option (list pystr) :=
  match sheets with
  | [] => Some []
  | None :: _ => None
  | Some t :: rest =>
      match sheet_titles rest with Some ts => Some (t :: ts) | None => None end
  end.

(** The state of a Sheets call: what it returns or raises, and the
    requests sent so far. *)
Definition SM (A : Type) := list ApiCall -> s_res A * list ApiCall.

(** [_add_headers]: an [HttpError] is caught. *)
Definition add_headers (api : SheetsApi) (name : pystr) : SM unit :=
  fun tr =>
    let tr1 := tr ++ [CallUpdate (name ++ py "!A1") [map CStr HEADERS]] in
    match api_update api with
    | SOk _ | SRaise (HttpError _) => (SOk tt, tr1)
    | SRaise e => (SRaise e, tr1)
    end.

(** [_ensure_sheet_exists]: an [HttpError] gives [False]; anything else
    escapes. *)
Definition ensure_sheet_exists (api : SheetsApi) (name : pystr) : SM bool :=
  fun tr =>
    let tr1 := tr ++ [CallGet] in
    match api_get api with
    | SRaise (HttpError _) => (SOk false, tr1)
    | SRaise e => (SRaise e, tr1)
    | SOk sheets =>
        match sheet_titles (match sheets with Some l => l | None => [] end) with
        | None => (SRaise (SheetsOther (OtherException (py "KeyError"))), tr1)
        | Some names =>
            if existsb (str_eqb name) names then (SOk true, tr1)
            else
              let tr2 := tr1 ++ [CallBatchUpdate name] in
              match api_batch_update api with
              | SRaise (HttpError _) => (SOk false, tr2)
              | SRaise e => (SRaise e, tr2)
              | SOk _ =>
                  match add_headers api name tr2 with
                  | (SOk _, tr3) => (SOk true, tr3)
                  | (SRaise e, tr3) => (SRaise e, tr3)
                  end
              end
        end
    end.

(** [append_row]: the result of [_ensure_sheet_exists] is ignored. *)
Definition append_row (api : SheetsApi) (name : pystr) (row : list cell) : SM bool :=
  fun tr =>
    match ensure_sheet_exists api name tr with
    | (SRaise e, tr1) => (SRaise e, tr1)
    | (SOk _, tr1) =>
        let tr2 := tr1 ++ [CallAppend (name ++ py "!A:Z") [row]] in
        match api_append api with
        | SOk _ => (SOk true, tr2)
        | SRaise (HttpError _) => (SOk false, tr2)
        | SRaise e => (SRaise e, tr2)
        end
    end.

Definition sexn_to_exn (e : sexn) : exn :=
  match e with HttpError m => OtherException m | SheetsOther e' => e' end.

(** The sink [save_to_sheets] talks to: [GoogleSheetsManager(id)] with
    the default sheet name, and [append_row(row_data)]. *)
Definition gsheets_sink (id : pystr) (api : SheetsApi) (date time : pystr) : Sink := {|
  spreadsheet_id := id;
  sheets_connect := authenticate api;
  sheets_append_row := fun r =>
    match fst (append_row api SHEET_NAME (row_data date time r) []) with
    | SOk _ => Ok tt
    | SRaise e => Raise (sexn_to_exn e)
    end
|}.

(** The row [save_to_sheets] appends has the 10 fixed columns and two
    more for each of the first 10 slots. *)
Theorem row_data_length date time r :
  length (row_data date time r) = 10 + 2 * Nat.min 10 (length (r_slots r)).
Proof.
  unfold row_data; rewrite length_app.
  assert (H : forall l : list Slot,
             length (flat_map (fun s => [CStr (slot_type s); CStr (firstn 50 (slot_text s))]) l)
             = 2 * length l).
  { induction l as [|s l IH]; cbn [flat_map length app]; [reflexivity|]. rewrite IH; lia. }
  rewrite H, length_firstn; reflexivity.
Qed.





(** When the sheet check returns and [values().append] raises an
    [HttpError], [append_row] returns [False], and [save_to_sheets] still
    returns [True]. *)
Theorem append_http_error_reported_saved id api date time r m :
  str_eqb id [] = false -> authenticate api = Ok tt ->
  api_append api = SRaise (HttpError m) ->
  (exists b, fst (ensure_sheet_exists api SHEET_NAME []) = SOk b) ->
  fst (append_row api SHEET_NAME (row_data date time r) []) = SOk false /\
  save_to_sheets (gsheets_sink id api date time) r = true.
Proof.
  intros Hid Ha Hap (b & Hb).
  assert (E : fst (append_row api SHEET_NAME (row_data date time r) []) = SOk false).
  { unfold append_row.
    destruct (ensure_sheet_exists api SHEET_NAME []) as [[b'|e] tr1]; cbn [fst] in Hb;
      [|discriminate].
    rewrite Hap; reflexivity. }
  split; [exact E|].
  unfold save_to_sheets; cbn [spreadsheet_id sheets_connect sheets_append_row gsheets_sink].
  rewrite Hid, Ha, E; reflexivity.
Qed.

(** A client whose requests all raise [HttpError]s. *)
Definition quota_api : SheetsApi := {|
  api_credentials_exist := true;
  api_build := Ok tt;
  api_get := SRaise (HttpError (py "Quota exceeded"));
  api_batch_update := SRaise (HttpError (py "Quota exceeded"));
  api_update := SRaise (HttpError (py "Quota exceeded"));
  api_append := SRaise (HttpError (py "Quota exceeded"));
  api_values := SRaise (HttpError (py "Quota exceeded"))
|}.

Definition sample_date : pystr := py "2026-01-01".
Definition sample_time : pystr := py "00:00:00".

Lemma append_http_error_reported_saved_witness :
  (str_eqb (py "sheet-id") [] = false /\ authenticate quota_api = Ok tt /\
   api_append quota_api = SRaise (HttpError (py "Quota exceeded")) /\
   (exists b, fst (ensure_sheet_exists quota_api SHEET_NAME []) = SOk b)) /\
  fst (append_row quota_api SHEET_NAME (row_data sample_date sample_time init_results) []) =
    SOk false /\
  save_to_sheets (gsheets_sink (py "sheet-id") quota_api sample_date sample_time) init_results
    = true.
Proof.
  split; [split; [reflexivity|split; [reflexivity|split; [reflexivity|exists false; reflexivity]]]|].
  apply (append_http_error_reported_saved (py "sheet-id") quota_api sample_date sample_time
           init_results (py "Quota exceeded"));
    [reflexivity|reflexivity|reflexivity|exists false; reflexivity].
Defined.


(** [append_row] first reads the sheet list; when the sheet is missing
    it creates it and writes the header row at [A1] before appending the
    row; when it exists only the row is appended. *)
Theorem headers_before_first_row api sheets names row :
  api_get api = SOk (Some sheets) -> sheet_titles sheets = Some names ->
  api_batch_update api = SOk tt ->
  (api_update api = SOk tt \/ exists m, api_update api = SRaise (HttpError m)) ->
  snd (append_row api SHEET_NAME row []) =
    [CallGet] ++
    (if existsb (str_eqb SHEET_NAME) names then []
     else [CallBatchUpdate SHEET_NAME;
           CallUpdate (SHEET_NAME ++ py "!A1") [map CStr HEADERS]]) ++
    [CallAppend (SHEET_NAME ++ py "!A:Z") [row]].
Proof.
  intros Hg Ht Hb Hu.
  unfold append_row, ensure_sheet_exists, add_headers.
  rewrite Hg, Ht.
  destruct (existsb (str_eqb SHEET_NAME) names).
  - destruct (api_append api) as [a|[m|e]]; reflexivity.
  - rewrite Hb.
    destruct Hu as [Hu|(m & Hu)]; rewrite Hu;
      destruct (api_append api) as [a|[m'|e]]; reflexivity.
Qed.

(** A spreadsheet holding only [Sheet1], where every request succeeds. *)
Definition fresh_api : SheetsApi := {|
  api_credentials_exist := true;
  api_build := Ok tt;
  api_get := SOk (Some [Some (py "Sheet1")]);
  api_batch_update := SOk tt;
  api_update := SOk tt;
  api_append := SOk tt;
  api_values := SOk None
|}.

Lemma headers_before_first_row_witness :
  (api_get fresh_api = SOk (Some [Some (py "Sheet1")]) /\
   sheet_titles [Some (py "Sheet1")] = Some [py "Sheet1"] /\
   api_batch_update fresh_api = SOk tt /\
   (api_update fresh_api = SOk tt \/ exists m, api_update fresh_api = SRaise (HttpError m))) /\
  snd (append_row fresh_api SHEET_NAME [CStr sample_date] []) =
    [CallGet] ++
    (if existsb (str_eqb SHEET_NAME) [py "Sheet1"] then []
     else [CallBatchUpdate SHEET_NAME;
           CallUpdate (SHEET_NAME ++ py "!A1") [map CStr HEADERS]]) ++
    [CallAppend (SHEET_NAME ++ py "!A:Z") [[CStr sample_date]]].
Proof.
  split; [split; [reflexivity|split; [reflexivity|split; [reflexivity|left; reflexivity]]]|].
  apply (headers_before_first_row fresh_api [Some (py "Sheet1")] [py "Sheet1"]);
    [reflexivity|reflexivity|reflexivity|left; reflexivity].
Defined.


(** When a sheet of the spreadsheet has no [properties.title], the
    [KeyError] escapes [_ensure_sheet_exists] and [append_row]: nothing
    is appended and [save_to_sheets] returns [False]. *)
Theorem malformed_sheet_list_not_saved id api date time r sheets :
  api_get api = SOk (Some sheets) -> sheet_titles sheets = None ->
  snd (append_row api SHEET_NAME (row_data date time r) []) = [CallGet] /\
  save_to_sheets (gsheets_sink id api date time) r = false.
Proof.
  intros Hg Ht.
  unfold save_to_sheets; cbn [spreadsheet_id sheets_connect sheets_append_row gsheets_sink].
  unfold append_row, ensure_sheet_exists; rewrite Hg, Ht.
  split; [reflexivity|].
  destruct (str_eqb id []); [reflexivity|].
  destruct (authenticate api); reflexivity.
Qed.

(** A spreadsheet whose only sheet has no title. *)
Definition untitled_api : SheetsApi := {|
  api_credentials_exist := true;
  api_build := Ok tt;
  api_get := SOk (Some [None]);
  api_batch_update := SOk tt;
  api_update := SOk tt;
  api_append := SOk tt;
  api_values := SOk None
|}.

Lemma malformed_sheet_list_not_saved_witness :
  (api_get untitled_api = SOk (Some [None]) /\ sheet_titles [None] = None) /\
  snd (append_row untitled_api SHEET_NAME (row_data sample_date sample_time init_results) [])
    = [CallGet] /\
  save_to_sheets (gsheets_sink (py "sheet-id") untitled_api sample_date sample_time)
    init_results = false.
Proof.
  split; [split; reflexivity|].
  apply (malformed_sheet_list_not_saved (py "sheet-id") untitled_api sample_date sample_time
           init_results [None]); reflexivity.
Defined.


(** * [load_cookies]

    [run] sees only its boolean result ([env_load_cookies]); here is what
    it does to reach it. *)

(** The Python value [json.loads] returns: a dict as its list of items,
    keys distinct. *)
Inductive JValue :=
  | JNull
  | JBool (b : bool)
  | JNum (n : Z)
  | JStr (s : pystr)
  | JArr (l : list JValue)
  | JObj (kv : list (pystr * JValue)).

Fixpoint jlookup (k : pystr) (kv : list (pystr * JValue)) : option JValue :=
  match kv with
  | [] => None
  | (k', v) :: rest => if str_eqb k k' then Some v else jlookup k rest
  end.

(** [cookie[k]]: a KeyError on a dict without [k], a TypeError on any
    other value. *)
Definition jindex (c : JValue) (k : pystr) : py_res JValue :=
  match c with
  | JObj kv =>
      match jlookup k kv with
      | Some v => Ok v
      | None => Raise (OtherException (py "KeyError"))
      end
  | _ => Raise (OtherException (py "TypeError"))
  end.

(** [cookie.get(k, d)]: an AttributeError on a value that is not a dict. *)
Definition jget (c : JValue) (k : pystr) (d : JValue) : py_res JValue :=
  match c with
  | JObj kv => Ok (match jlookup k kv with Some v => v | None => d end)
  | _ => Raise (OtherException (py "AttributeError"))
  end.

(** [k in cookie] on a dict. *)
Definition jhas (c : JValue) (k : pystr) : bool :=
  match c with
  | JObj kv => match jlookup k kv with Some _ => true | None => false end
  | _ => false
  end.

(** The [cookie_dict] handed to [driver.add_cookie]. *)
Record CookieDict := {
  cd_name : JValue;
  cd_value : JValue;
  cd_domain : JValue;
  cd_path : JValue;
  cd_secure : option JValue;     (* key present only if the cookie has it *)
  cd_httpOnly : option JValue
}.

(** The inner [try] body before [driver.add_cookie]. *)
Definition cookie_dict_of (c : JValue) : py_res CookieDict :=
  let? name := jindex c (py "name") in
  let? value := jindex c (py "value") in
  let? domain := jget c (py "domain") (JStr (py ".baemin.com")) in
  let? path := (if jhas c (py "path") then jindex c (py "path") else Ok (JStr (py "/"))) in
  let? secure := (if jhas c (py "secure") then
                    let? v := jindex c (py "secure") in Ok (Some v) else Ok None) in
  let? http_only := (if jhas c (py "httpOnly") then
                       let? v := jindex c (py "httpOnly") in Ok (Some v) else Ok None) in
  Ok {| cd_name := name; cd_value := value; cd_domain := domain; cd_path := path;
        cd_secure := secure; cd_httpOnly := http_only |}.

(** What [load_cookies] depends on. *)
Record CookieEnv := {
  cookies_json : pystr;                         (* Config.COOKIES_JSON *)
  json_loads : pystr -> py_res JValue;          (* json.loads *)
  ck_driver_get : pystr -> py_res unit;         (* driver.get(url) *)
  ck_add_cookie : CookieDict -> py_res unit     (* driver.add_cookie(d) *)
}.

Inductive CookieCall :=
  | CkGet (url : pystr)
  | CkAdd (d : CookieDict).

(** [len(cookies)] *)
Definition jlen (v : JValue) : py_res nat :=
  match v with
  | JStr s => Ok (length s)
  | JArr l => Ok (length l)
  | JObj kv => Ok (length kv)
  | _ => Raise (OtherException (py "TypeError"))
  end.

(** [for cookie in cookies]: a list's items, a dict's keys, a string's
    characters. *)
Definition jiter (v : JValue) : py_res (list JValue) :=
  match v with
  | JArr l => Ok l
  | JObj kv => Ok (map (fun p => JStr (fst p)) kv)
  | JStr s => Ok (map (fun c => JStr [c]) s)
  | _ => Raise (OtherException (py "TypeError"))
  end.

(** The [for cookie in cookies] loop: a failure of the inner [try] is
    caught, but its handler evaluates [cookie.get('name', 'unknown')],
    which raises on a cookie that is not a dict. *)
Fixpoint add_cookies (ce : CookieEnv) (cookies : list JValue) (tr : list CookieCall)
  : py_res unit * list CookieCall :=
  match cookies with
  | [] => (Ok tt, tr)
  | c :: rest =>
      let handler tr' :=
        match jget c (py "name") (JStr (py "unknown")) with
        | Ok _ => add_cookies ce rest tr'
        | Raise e => (Raise e, tr')
        end in
      match cookie_dict_of c with
      | Raise _ => handler tr
      | Ok d =>
          match ck_add_cookie ce d with
          | Ok _ => add_cookies ce rest (tr ++ [CkAdd d])
          | Raise _ => handler (tr ++ [CkAdd d])
          end
      end
  end.

(** [load_cookies]: the result and the driver calls made. *)
Definition load_cookies (ce : CookieEnv) : bool * list CookieCall :=
  if str_eqb (cookies_json ce) [] then (false, [])
  else
    match json_loads ce (cookies_json ce) with
    | Raise _ => (false, [])
    | Ok cookies =>
        match jlen cookies with
        | Raise _ => (false, [])
        | Ok _ =>
            let tr := [CkGet (py "https://ceo.baemin.com")] in
            match ck_driver_get ce (py "https://ceo.baemin.com") with
            | Raise _ => (false, tr)
            | Ok _ =>
                match jiter cookies with
                | Raise _ => (false, tr)
                | Ok items =>
                    match add_cookies ce items tr with
                    | (Ok _, tr') => (true, tr')
                    | (Raise _, tr') => (false, tr')
                    end
                end
            end
        end
    end.

Definition is_obj (v : JValue) : bool := match v with JObj _ => true | _ => false end.

(** The cookie dicts built from a list of dicts, in order, skipping the
    ones without [name] or [value]. *)
Fixpoint built_dicts (cookies : list JValue) : list CookieDict :=
  match cookies with
  | [] => []
  | c :: rest =>
      match cookie_dict_of c with
      | Ok d => d :: built_dicts rest
      | Raise _ => built_dicts rest
      end
  end.

Definition sid_cookie : list (pystr * JValue) :=
  [(py "name", JStr (py "sid")); (py "value", JStr (py "abc"))].

Lemma add_cookies_dicts ce cookies :
  forall tr, forallb is_obj cookies = true ->
  add_cookies ce cookies tr = (Ok tt, tr ++ map CkAdd (built_dicts cookies)).
Proof.
  induction cookies as [|c rest IH]; intros tr Hobj; cbn [add_cookies built_dicts map].
  - rewrite app_nil_r; reflexivity.
  - cbn [forallb] in Hobj; apply andb_prop in Hobj as [Hc Hrest].
    destruct c; try discriminate.
    cbn [jget].
    destruct (cookie_dict_of (JObj kv)) as [d|e].
    + cbn [map]; destruct (ck_add_cookie ce d); rewrite IH by exact Hrest;
        rewrite <- app_assoc; reflexivity.
    + apply IH, Hrest.
Qed.

(** For a configured JSON list of dicts, [load_cookies] opens the site,
    adds the dict of every cookie that has a [name] and a [value], in
    order, skipping the others, and returns [True]; if opening the site
    raises it returns [False] with no cookie added. *)
Theorem cookie_list_loaded ce cookies :
  str_eqb (cookies_json ce) [] = false ->
  json_loads ce (cookies_json ce) = Ok (JArr cookies) ->
  forallb is_obj cookies = true ->
  load_cookies ce =
    match ck_driver_get ce (py "https://ceo.baemin.com") with
    | Ok _ => (true, CkGet (py "https://ceo.baemin.com") :: map CkAdd (built_dicts cookies))
    | Raise _ => (false, [CkGet (py "https://ceo.baemin.com")])
    end.
Proof.
  intros He Hj Hobj; unfold load_cookies; rewrite He, Hj; cbn [jlen jiter].
  destruct (ck_driver_get ce (py "https://ceo.baemin.com")); [|reflexivity].
  rewrite add_cookies_dicts by exact Hobj; reflexivity.
Qed.

(** A configuration whose JSON parses to [cookies], with a working driver. *)
Definition cookie_env (cookies : list JValue) : CookieEnv := {|
  cookies_json := py "[...]";
  json_loads := fun _ => Ok (JArr cookies);
  ck_driver_get := fun _ => Ok tt;
  ck_add_cookie := fun _ => Ok tt
|}.

Lemma cookie_list_loaded_witness :
  let ce := cookie_env [JObj sid_cookie; JObj []] in
  (str_eqb (cookies_json ce) [] = false /\
   json_loads ce (cookies_json ce) = Ok (JArr [JObj sid_cookie; JObj []]) /\
   forallb is_obj [JObj sid_cookie; JObj []] = true) /\
  load_cookies ce =
    match ck_driver_get ce (py "https://ceo.baemin.com") with
    | Ok _ => (true, CkGet (py "https://ceo.baemin.com") ::
                     map CkAdd (built_dicts [JObj sid_cookie; JObj []]))
    | Raise _ => (false, [CkGet (py "https://ceo.baemin.com")])
    end.
Proof.
  split; [split; [reflexivity|split; reflexivity]|].
  apply (cookie_list_loaded (cookie_env [JObj sid_cookie; JObj []])
           [JObj sid_cookie; JObj []]); reflexivity.
Defined.


(** A list item that is not a dict makes the exception handler's
    [cookie.get] raise: [load_cookies] returns [False] after adding the
    cookies of the dicts before it and none after. *)
Theorem non_dict_cookie_aborts ce pre v post :
  str_eqb (cookies_json ce) [] = false ->
  json_loads ce (cookies_json ce) = Ok (JArr (pre ++ v :: post)) ->
  forallb is_obj pre = true -> is_obj v = false ->
  ck_driver_get ce (py "https://ceo.baemin.com") = Ok tt ->
  load_cookies ce =
    (false, CkGet (py "https://ceo.baemin.com") :: map CkAdd (built_dicts pre)).
Proof.
  intros He Hj Hpre Hv Hg; unfold load_cookies; rewrite He, Hj; cbn [jlen jiter].
  rewrite Hg.
  assert (H : forall tr, add_cookies ce (pre ++ v :: post) tr =
                         (Raise (OtherException (py "AttributeError")),
                          tr ++ map CkAdd (built_dicts pre))).
  { clear Hj; induction pre as [|c rest IH]; intros tr; cbn [app add_cookies built_dicts map].
    - destruct v; try discriminate; cbn [jget cookie_dict_of jindex];
        rewrite app_nil_r; reflexivity.
    - cbn [forallb] in Hpre; apply andb_prop in Hpre as [Hc Hrest].
      destruct c; try discriminate; cbn [jget].
      destruct (cookie_dict_of (JObj kv)) as [d|e].
      + cbn [map]; destruct (ck_add_cookie ce d); rewrite IH by exact Hrest;
          rewrite <- app_assoc; reflexivity.
      + apply IH, Hrest. }
  rewrite H; reflexivity.
Qed.

Lemma non_dict_cookie_aborts_witness :
  let ce := cookie_env [JObj sid_cookie; JStr (py "x"); JObj sid_cookie] in
  (str_eqb (cookies_json ce) [] = false /\
   json_loads ce (cookies_json ce) =
     Ok (JArr ([JObj sid_cookie] ++ JStr (py "x") :: [JObj sid_cookie])) /\
   forallb is_obj [JObj sid_cookie] = true /\ is_obj (JStr (py "x")) = false /\
   ck_driver_get ce (py "https://ceo.baemin.com") = Ok tt) /\
  load_cookies ce =
    (false, CkGet (py "https://ceo.baemin.com") :: map CkAdd (built_dicts [JObj sid_cookie])).
Proof.
  split; [repeat split|].
  apply (non_dict_cookie_aborts (cookie_env [JObj sid_cookie; JStr (py "x"); JObj sid_cookie])
           [JObj sid_cookie] (JStr (py "x")) [JObj sid_cookie]); reflexivity.
Defined.

